(** * Polymarket exit monitor: a shallow embedding of [main.py]

    The monitor is one sequential scan: fetch two order books per monitored
    combination, take the best bid of each, add them, compare the sum with a
    threshold and send a Telegram message when it is reached.

    Python values are an inductive type, Python floats are IEEE-754 binary64
    numbers ([spec_float] with precision 53 and [emax] 1024), dictionaries are
    finite maps, exceptions are an explicit [result] type and the effects
    (console output and HTTP requests) are recorded in a trace that is
    threaded through a state-and-error monad. *)

From Stdlib Require Import ZArith String Ascii List Bool Lia.
From Stdlib Require Import Floats.SpecFloat.
From stdpp Require Import gmap strings list pretty.
Import ListNotations.

Set Warnings "-register-all".

Open Scope string_scope.
Open Scope Z_scope.
Open Scope list_scope.

(* ===================================================================== *)
(** * Python values *)
(* ===================================================================== *)

(** The values the program handles: what [r.json()] can produce, which is
    also everything [safe_float] and [best_bid] are ever applied to. *)
Inductive PyVal : Type :=
| PyNone
| PyBool (b : bool)
| PyInt (n : Z)
| PyFloat (f : spec_float)
| PyStr (s : string)
| PyList (l : list PyVal)
| PyDict (d : gmap string PyVal).

(** The exceptions the modelled operations raise by themselves.  All of them
    are subclasses of Python's [Exception], so [except Exception] catches
    every one of them. *)
Inductive exn : Type :=
| KeyError (key : string)
| TypeError (msg : string)
| ValueError (msg : string)
| AttributeError (msg : string)
| OverflowError (msg : string)
| ConnectionError (msg : string)
| Timeout (msg : string)
| HTTPError (msg : string)
| JSONDecodeError (msg : string).

Inductive result (A : Type) : Type :=
| Ok (a : A)
| Raise (e : exn).
Arguments Ok {A} a.
Arguments Raise {A} e.

Definition rbind {A B} (r : result A) (k : A -> result B) : result B :=
  match r with
  | Ok a => k a
  | Raise e => Raise e
  end.

Notation "x <-? c ;; k" := (rbind c (fun x => k))
  (at level 100, c at next level, right associativity).

(** ** Strings *)

Definition nl : string := String "010" EmptyString.

Definition chars (s : string) : list ascii := list_ascii_of_string s.

Definition code (c : ascii) : Z := Z.of_nat (nat_of_ascii c).

(** [needle in s] for two strings. *)
Fixpoint is_substring (needle s : string) : bool :=
  String.prefix needle s ||
  match s with
  | EmptyString => false
  | String _ rest => is_substring needle rest
  end.

Definition double_quote : ascii := "034"%char.

Definition hex_digit (n : Z) : ascii :=
  ascii_of_nat (Z.to_nat (if n <? 10 then 48 + n else 87 + n)).

Definition repr_char (quote : ascii) (c : ascii) : string :=
  if Ascii.eqb c "\" then "\\"
  else if Ascii.eqb c quote then String "\" (String quote "")
  else if Ascii.eqb c "010" then "\n"
  else if Ascii.eqb c "013" then "\r"
  else if Ascii.eqb c "009" then "\t"
  else if (code c <? 32) || (code c =? 127) then
    "\x" +:+ String (hex_digit (code c / 16)) (String (hex_digit (code c mod 16)) "")
  else String c "".

(** [repr(s)] of a string: single quotes unless the string has a single
    quote and no double quote; backslash, the quote and control characters
    are escaped.  Bytes above 127 (UTF-8 text) are kept as they are. *)
Definition repr (s : string) : string :=
  let quote : ascii :=
    if is_substring "'" s && negb (is_substring (String double_quote "") s)
    then double_quote else "'"%char in
  String quote (String.concat "" (map (repr_char quote) (chars s)))
    +:+ String quote "".

(** [str(e)]: the text of an exception.  A [KeyError] shows the [repr] of
    the key, the others their message. *)
Definition exn_text (e : exn) : string :=
  match e with
  | KeyError k => repr k
  | TypeError m | ValueError m | AttributeError m | OverflowError m
  | ConnectionError m | Timeout m | HTTPError m | JSONDecodeError m => m
  end.

Definition type_name (v : PyVal) : string :=
  match v with
  | PyNone => "NoneType"
  | PyBool _ => "bool"
  | PyInt _ => "int"
  | PyFloat _ => "float"
  | PyStr _ => "str"
  | PyList _ => "list"
  | PyDict _ => "dict"
  end.

(* ===================================================================== *)
(** * Floats *)
(* ===================================================================== *)

Definition prec : Z := 53.
Definition emax : Z := 1024.

Definition is_nan (x : spec_float) : bool :=
  match x with S754_nan => true | _ => false end.

(** [x > y], [x >= y] and [x + y] on Python floats. *)
Definition float_gt (x y : spec_float) : bool := SFltb y x.
Definition float_ge (x y : spec_float) : bool := SFleb y x.
Definition float_add (x y : spec_float) : spec_float := SFadd prec emax x y.

(** The binary64 number nearest to [(-1)^s * m * 10^e10] (ties to even). *)
Definition float_of_decimal (s : bool) (m : Z) (e10 : Z) : spec_float :=
  match m with
  | Zpos p =>
      if 0 <=? e10
      then binary_round prec emax s (Z.to_pos (Zpos p * 10 ^ e10)) 0
      else SFdiv prec emax (S754_finite s p 0)
             (S754_finite false (Z.to_pos (10 ^ (- e10))) 0)
  | _ => S754_zero s
  end.

(** ** Text: from UTF-8 bytes to the ASCII form that [float] parses

    A [PyStr] holds the UTF-8 encoding of the text.  Before it parses a
    string that has a character outside ASCII, [float(str)] replaces every
    Unicode white space by a blank and every Unicode decimal digit by the
    ASCII digit of its value; any other character outside ASCII makes the
    conversion fail.  The tables are those of Unicode 14.0 (CPython 3.11). *)

Definition continuation (c : ascii) : option N :=
  let b := N_of_ascii c in
  if ((128 <=? b) && (b <? 192))%N then Some (b - 128)%N else None.

Definition checked (low cp : N) : option N :=
  if ((low <=? cp) && (cp <=? 1114111))%N then Some cp else None.

(** The code points of a UTF-8 byte sequence; [None] when the bytes are not
    the encoding of a text. *)
Fixpoint utf8_decode (l : list ascii) : option (list N) :=
  match l with
  | [] => Some []
  | c :: rest =>
      let b := N_of_ascii c in
      if (b <? 128)%N then cons b <$> utf8_decode rest
      else if (b <? 192)%N then None
      else if (b <? 224)%N then
        match rest with
        | c1 :: rest1 =>
            x1 ← continuation c1;
            cp ← checked 128 ((b - 192) * 64 + x1)%N;
            cons cp <$> utf8_decode rest1
        | _ => None
        end
      else if (b <? 240)%N then
        match rest with
        | c1 :: c2 :: rest2 =>
            x1 ← continuation c1;
            x2 ← continuation c2;
            cp ← checked 2048 (((b - 224) * 64 + x1) * 64 + x2)%N;
            cons cp <$> utf8_decode rest2
        | _ => None
        end
      else if (b <? 248)%N then
        match rest with
        | c1 :: c2 :: c3 :: rest3 =>
            x1 ← continuation c1;
            x2 ← continuation c2;
            x3 ← continuation c3;
            cp ← checked 65536 ((((b - 240) * 64 + x1) * 64 + x2) * 64 + x3)%N;
            cons cp <$> utf8_decode rest3
        | _ => None
        end
      else None
  end.

(** The white space outside ASCII. *)
Definition unicode_space (cp : N) : bool :=
  ((cp =? 133) || (cp =? 160) || (cp =? 5760)
   || ((8192 <=? cp) && (cp <=? 8202))
   || (cp =? 8232) || (cp =? 8233) || (cp =? 8239) || (cp =? 8287)
   || (cp =? 12288))%N.

(** The code points of the digit zero of every script outside ASCII; the
    digits 1 to 9 of the script follow each. *)
Definition unicode_zeros : list N := [
  1632; 1776; 1984; 2406; 2534; 2662; 2790; 2918; 3046; 3174; 3302; 3430;
  3558; 3664; 3792; 3872; 4160; 4240; 6112; 6160; 6470; 6608; 6784; 6800;
  6992; 7088; 7232; 7248; 42528; 43216; 43264; 43472; 43504; 43600; 44016;
  65296; 66720; 68912; 69734; 69872; 69942; 70096; 70384; 70736; 70864;
  71248; 71360; 71472; 71904; 72016; 72784; 73040; 73120; 92768; 92864;
  93008; 120782; 120792; 120802; 120812; 120822; 123200; 123632; 125264;
  130032
]%N.

(** The value of a decimal digit outside ASCII. *)
Definition unicode_digit (cp : N) : option N :=
  (λ zero, (cp - zero)%N) <$>
    find (λ zero, ((zero <=? cp) && (cp <? zero + 10))%N) unicode_zeros.

Definition ascii_form_char (cp : N) : option ascii :=
  if (cp <? 128)%N then Some (ascii_of_N cp)
  else if unicode_space cp then Some " "%char
  else (λ d, ascii_of_N (48 + d)) <$> unicode_digit cp.

(** The ASCII form of a text, or [None] when it has a character outside
    ASCII that is neither white space nor a decimal digit. *)
Definition ascii_form (s : string) : option (list ascii) :=
  cps ← utf8_decode (chars s);
  mapM ascii_form_char cps.

(** ** The literal grammar of [float(str)], on the ASCII form *)

Definition is_space (c : ascii) : bool :=
  ((9 <=? code c) && (code c <=? 13)) || (code c =? 32).

Definition is_digit (c : ascii) : bool :=
  (48 <=? code c) && (code c <=? 57).

Definition lower (c : ascii) : ascii :=
  if (65 <=? code c) && (code c <=? 90)
  then ascii_of_nat (nat_of_ascii c + 32) else c.

Fixpoint lstrip (l : list ascii) : list ascii :=
  match l with
  | c :: rest => if is_space c then lstrip rest else l
  | [] => []
  end.

Definition strip (l : list ascii) : list ascii :=
  rev (lstrip (rev (lstrip l))).

(** Digits after the first one of a digit part: a digit, or one underscore
    followed by a digit.  Returns the accumulated value, the number of
    digits read and the rest of the input. *)
Fixpoint more_digits (l : list ascii) (acc : Z) (n : Z) : Z * Z * list ascii :=
  match l with
  | c :: rest =>
      if is_digit c then more_digits rest (10 * acc + (code c - 48)) (n + 1)
      else if Ascii.eqb c "_" then
        match rest with
        | d :: rest' =>
            if is_digit d
            then more_digits rest' (10 * acc + (code d - 48)) (n + 1)
            else (acc, n, l)
        | [] => (acc, n, l)
        end
      else (acc, n, l)
  | [] => (acc, n, l)
  end.

(** [digitpart ::= digit (["_"] digit)*], continuing the value [acc]. *)
Definition digitpart (l : list ascii) (acc : Z) : option (Z * Z * list ascii) :=
  match l with
  | c :: rest =>
      if is_digit c then Some (more_digits rest (10 * acc + (code c - 48)) 1)
      else None
  | [] => None
  end.

Definition take_sign (l : list ascii) : bool * list ascii :=
  match l with
  | c :: rest =>
      if Ascii.eqb c "-" then (true, rest)
      else if Ascii.eqb c "+" then (false, rest)
      else (false, l)
  | [] => (false, l)
  end.

(** [number ::= [digitpart] "." digitpart | digitpart ["."]]: the digits as
    one integer and the number of digits after the point. *)
Definition number (l : list ascii) : option (Z * Z * list ascii) :=
  match digitpart l 0 with
  | Some (ip, _, rest) =>
      match rest with
      | c :: rest' =>
          if Ascii.eqb c "." then
            match digitpart rest' ip with
            | Some (m, nfrac, rest'') => Some (m, nfrac, rest'')
            | None => Some (ip, 0, rest')
            end
          else Some (ip, 0, rest)
      | [] => Some (ip, 0, rest)
      end
  | None =>
      match l with
      | c :: rest' =>
          if Ascii.eqb c "." then digitpart rest' 0 else None
      | [] => None
      end
  end.

(** [exponent ::= ("e" | "E") [sign] digitpart], absent exponent is 0. *)
Definition exponent (l : list ascii) : option (Z * list ascii) :=
  match l with
  | c :: rest =>
      if Ascii.eqb (lower c) "e" then
        let '(s, rest') := take_sign rest in
        match digitpart rest' 0 with
        | Some (e, _, rest'') => Some (if s then - e else e, rest'')
        | None => None
        end
      else Some (0, l)
  | [] => Some (0, l)
  end.

(** A literal in ASCII form: surrounding white space is dropped, then an
    optional sign and [inf], [infinity], [nan] (in any case) or a decimal
    literal. *)
Definition parse_literal (l : list ascii) : option spec_float :=
  let '(sg, body) := take_sign (strip l) in
  let word := string_of_list_ascii (map lower body) in
  if String.eqb word "inf" || String.eqb word "infinity" then
    Some (S754_infinity sg)
  else if String.eqb word "nan" then Some S754_nan
  else
    match number body with
    | Some (m, nfrac, rest) =>
        match exponent rest with
        | Some (e, []) => Some (float_of_decimal sg m (e - nfrac))
        | _ => None
        end
    | None => None
    end.

(** [float(s)] for a string: the literal of its ASCII form. *)
Definition parse_float (s : string) : option spec_float :=
  ascii_form s ≫= parse_literal.

(** [float(n)] for an integer: the nearest binary64 number, or
    [OverflowError] when that is out of range. *)
Definition float_of_int (n : Z) : result spec_float :=
  match binary_normalize prec emax n 0 false with
  | S754_infinity _ => Raise (OverflowError "int too large to convert to float")
  | f => Ok f
  end.

(** The builtin [float(x)]. *)
Definition float (x : PyVal) : result spec_float :=
  match x with
  | PyFloat f => Ok f
  | PyInt n => float_of_int n
  | PyBool b => float_of_int (if b then 1 else 0)
  | PyStr s =>
      match parse_float s with
      | Some f => Ok f
      | None => Raise (ValueError ("could not convert string to float: " +:+ repr s))
      end
  | _ => Raise (TypeError
           ("float() argument must be a string or a real number, not '"
              +:+ type_name x +:+ "'"))
  end.

(** ** Fixed-point formatting: [f"{x:.4f}"] and [f"{x:.2f}"] *)

Definition round_half_even_div (n d : Z) : Z :=
  let q := n / d in
  match 2 * (n mod d) ?= d with
  | Lt => q
  | Gt => q + 1
  | Eq => if Z.even q then q else q + 1
  end.

(** [m * 2^e * 10^digits] rounded to the nearest integer, ties to even. *)
Definition scaled (digits : nat) (m : positive) (e : Z) : Z :=
  let n := Zpos m * 10 ^ Z.of_nat digits in
  if 0 <=? e then n * 2 ^ e else round_half_even_div n (2 ^ (- e)).

Definition pad_zeros (width : nat) (s : string) : string :=
  string_of_list_ascii (repeat "0"%char (width - String.length s)) +:+ s.

Definition fixed (digits : nat) (n : Z) : string :=
  let p := 10 ^ Z.of_nat digits in
  pretty (Z.to_N (n / p)) +:+
  match digits with
  | O => ""
  | _ => "." +:+ pad_zeros digits (pretty (Z.to_N (n mod p)))
  end.

Definition sign_text (s : bool) : string := if s then "-" else "".

Definition format_f (digits : nat) (x : spec_float) : string :=
  match x with
  | S754_nan => "nan"
  | S754_infinity s => sign_text s +:+ "inf"
  | S754_zero s => sign_text s +:+ fixed digits 0
  | S754_finite s m e => sign_text s +:+ fixed digits (scaled digits m e)
  end.

(* ===================================================================== *)
(** * Operations on Python values *)
(* ===================================================================== *)

(** Truth value of an object, as [not raw] tests it. *)
Definition truthy (v : PyVal) : bool :=
  match v with
  | PyNone => false
  | PyBool b => b
  | PyInt n => negb (n =? 0)
  | PyFloat (S754_zero _) => false
  | PyFloat _ => true
  | PyStr s => negb (String.eqb s "")
  | PyList [] => false
  | PyList _ => true
  | PyDict d => match map_to_list d with [] => false | _ => true end
  end.

Definition is_str (key : string) (v : PyVal) : bool :=
  match v with
  | PyStr s => String.eqb s key
  | _ => false
  end.

(** [key in v] for a string [key]: key membership in a dict, element
    membership in a list, substring in a string, [TypeError] otherwise. *)
Definition py_in (key : string) (v : PyVal) : result bool :=
  match v with
  | PyDict d => Ok (match d !! key with Some _ => true | None => false end)
  | PyList l => Ok (existsb (is_str key) l)
  | PyStr s => Ok (is_substring key s)
  | _ => Raise (TypeError ("argument of type '" +:+ type_name v +:+ "' is not iterable"))
  end.

(** [v[key]] for a string [key]. *)
Definition py_getitem (v : PyVal) (key : string) : result PyVal :=
  match v with
  | PyDict d =>
      match d !! key with
      | Some x => Ok x
      | None => Raise (KeyError key)
      end
  | PyList _ => Raise (TypeError "list indices must be integers or slices, not str")
  | PyStr _ => Raise (TypeError "string indices must be integers, not 'str'")
  | _ => Raise (TypeError ("'" +:+ type_name v +:+ "' object is not subscriptable"))
  end.

(** The items a [for] loop over [v] visits: the elements of a list, the keys
    of a dict, the characters of a string.  (The order of a dict's keys is
    not kept by the finite map; the program only ever calls [.get] on an
    item, which fails alike on every key.) *)
Definition py_iter (v : PyVal) : result (list PyVal) :=
  match v with
  | PyList l => Ok l
  | PyDict d => Ok (map (fun kv => PyStr (fst kv)) (map_to_list d))
  | PyStr s => Ok (map (fun c => PyStr (String c "")) (chars s))
  | _ => Raise (TypeError ("'" +:+ type_name v +:+ "' object is not iterable"))
  end.

(** The method call [b.get(key)]: only a dict has the method. *)
Definition py_get (b : PyVal) (key : string) : result PyVal :=
  match b with
  | PyDict d => Ok (default PyNone (d !! key))
  | _ => Raise (AttributeError ("'" +:+ type_name b +:+ "' object has no attribute 'get'"))
  end.

(** [d[key]] on the static configuration. *)
Definition subscript {V} (d : gmap string V) (key : string) : result V :=
  match d !! key with
  | Some x => Ok x
  | None => Raise (KeyError key)
  end.

(* ===================================================================== *)
(** * Effects: the trace, the environment and the monad *)
(* ===================================================================== *)

(** What the process does to the outside world, in order: a line printed,
    [requests.get(url, params={"token_id": ...}, timeout=...)] and
    [requests.post(url, json={"chat_id": ..., "text": ..., "parse_mode": ...},
    timeout=...)]. *)
Inductive event : Type :=
| Printed (text : string)
| HttpGet (url : string) (token_id : string) (timeout : Z)
| HttpPost (url : string) (chat_id : option string) (text : string)
    (parse_mode : string) (timeout : Z).

(** A response of the [requests] library: its status code and what
    [r.json()] gives (an exception when the body is not JSON). *)
Record response : Type := {
  status_code : Z;
  json : result PyVal
}.

(** The environment of one run: the two credentials read with [os.getenv]
    ([None] when unset) and the network.  [network h] is the outcome of the
    request that is the last event of the history [h]: the request raises
    (connection failure, timeout) or returns a response. *)
Record Env : Type := {
  TELEGRAM_BOT_TOKEN : option string;
  TELEGRAM_CHAT_ID : option string;
  network : list event -> result response
}.

(** Computations: the trace so far goes in, a value or an exception and the
    extended trace come out. *)
Definition M (A : Type) : Type := list event -> result A * list event.

Definition ret {A} (a : A) : M A := fun t => (Ok a, t).

Definition raise {A} (e : exn) : M A := fun t => (Raise e, t).

Definition bind {A B} (m : M A) (k : A -> M B) : M B :=
  fun t =>
    match m t with
    | (Ok a, t') => k a t'
    | (Raise e, t') => (Raise e, t')
    end.

Definition lift {A} (r : result A) : M A := fun t => (r, t).

(** [try: m  except Exception as e: handler e]. *)
Definition try_except {A} (m : M A) (handler : exn -> M A) : M A :=
  fun t =>
    match m t with
    | (Ok a, t') => (Ok a, t')
    | (Raise e, t') => handler e t'
    end.

Notation "x <- c ;; k" := (bind c (fun x => k))
  (at level 100, c at next level, right associativity).
Notation "c ;; k" := (bind c (fun _ => k))
  (at level 100, right associativity).

Definition print (text : string) : M unit :=
  fun t => (Ok tt, t ++ [Printed text]).

(** [for x in l: body x], stopping at the first exception. *)
Fixpoint for_each {A} (l : list A) (body : A -> M unit) : M unit :=
  match l with
  | [] => ret tt
  | x :: rest => body x ;; for_each rest body
  end.

(** [not v] and [f"{v}"] for a value of [os.getenv]. *)
Definition unset (v : option string) : bool :=
  match v with
  | None => true
  | Some s => String.eqb s ""
  end.

Definition env_text (v : option string) : string := default "None" v.

(* ===================================================================== *)
(** * The program *)
(* ===================================================================== *)

(** ** CONFIG and MARKETS *)

Definition ORDERBOOK_URL : string := "https://clob.polymarket.com/book".

(** The literal [1.01]. *)
Definition THRESHOLD : spec_float := float_of_decimal false 101 (-2).

Definition TOKENS : gmap string (gmap string string) :=
  list_to_map [
    ("CUT25", list_to_map [
      ("YES", "92703761682322480664976766247614127878023988651992837287050266308961660624165");
      ("NO", "48193521645113703700467246669338225849301704920590102230072263970163239985027")]);
    ("CUTCUTCUT", list_to_map [
      ("YES", "95417221270011105499568468828531867453865533932484364685389046548264041887861");
      ("NO", "101322769768415942646735830228475566436146317671120615766292718518675772773223")]);
    ("NOCHANGE", list_to_map [
      ("YES", "112838095111461683880944516726938163688341306245473734071798778736646352193304");
      ("NO", "7321318078891059430231591636389479745928915782241484131001985601124919020061")]);
    ("CUTCUTPAUSE", list_to_map [
      ("YES", "113401754986342384261044700457165882158632153698445535217371023842472815025478");
      ("NO", "81906419701908530974011339985097627770048267181648886108185004759027261509242")])
  ].

(** (marketA, legA, marketB, legB) *)
Definition combo : Type := string * string * string * string.

Definition MONITORED_COMBOS : list combo := [
  ("CUT25", "YES", "CUTCUTPAUSE", "YES");
  ("NOCHANGE", "YES", "CUTCUTCUT", "YES")
].

(** [TOKENS[mkt][leg]]. *)
Definition token_of (mkt leg : string) : result string :=
  legs <-? subscript TOKENS mkt ;;
  subscript legs leg.

(** ** HELPERS *)

Definition safe_float (x : PyVal) : option spec_float :=
  match float x with
  | Ok f => Some f
  | Raise _ => None
  end.

Section Program.

Variable E : Env.

(** A request is recorded in the trace and answered by the network. *)
Definition request (ev : event) : M response :=
  fun t => (network E (t ++ [ev]), t ++ [ev]).

Definition requests_get (url token_id : string) (timeout : Z) : M response :=
  request (HttpGet url token_id timeout).

Definition requests_post (url : string) (chat_id : option string)
    (text parse_mode : string) (timeout : Z) : M response :=
  request (HttpPost url chat_id text parse_mode timeout).

(** [r.raise_for_status()]: an [HTTPError] for a 4xx or 5xx status. *)
Definition raise_for_status (r : response) : M unit :=
  if (400 <=? status_code r) && (status_code r <? 600)
  then raise (HTTPError (pretty (Z.to_N (status_code r)) +:+ " Error"))
  else ret tt.

Definition telegram_send (msg : string) : M unit :=
  if unset (TELEGRAM_BOT_TOKEN E) || unset (TELEGRAM_CHAT_ID E) then
    print "⚠️ Telegram not configured"
  else
    let url := "https://api.telegram.org/bot"
                 +:+ env_text (TELEGRAM_BOT_TOKEN E) +:+ "/sendMessage" in
    try_except
      (requests_post url (TELEGRAM_CHAT_ID E) msg "HTML" 6 ;; ret tt)
      (fun e => print ("Telegram error: " +:+ exn_text e)).

Definition fetch_orderbook (token_id : string) : M PyVal :=
  try_except
    (r <- requests_get ORDERBOOK_URL token_id 6 ;;
     raise_for_status r ;;
     lift (json r))
    (fun _ => ret PyNone).

(** One turn of the loop of [best_bid]: the new value of [best]. *)
Definition update_best (p best : option spec_float) : option spec_float :=
  match p with
  | Some pv =>
      match best with
      | None => p
      | Some bv => if float_gt pv bv then p else best
      end
  | None => best
  end.

(** [for b in ...: p = safe_float(b.get("price")); ...], from [best]. *)
Fixpoint best_loop (bids : list PyVal) (best : option spec_float)
    : result (option spec_float) :=
  match bids with
  | [] => Ok best
  | b :: rest =>
      price <-? py_get b "price" ;;
      best_loop rest (update_best (safe_float price) best)
  end.

(** [best_bid] after the fetch: what it does with the snapshot [raw]. *)
Definition best_of (raw : PyVal) : result (option spec_float) :=
  if negb (truthy raw) then Ok None
  else
    has_bids <-? py_in "bids" raw ;;
    if negb has_bids then Ok None
    else
      bids <-? py_getitem raw "bids" ;;
      items <-? py_iter bids ;;
      best_loop items None.

Definition best_bid (token_id : string) : M (option spec_float) :=
  raw <- fetch_orderbook token_id ;;
  lift (best_of raw).

(** ** CORE LOGIC *)

Definition label (mktA legA : string) (sep : string) (mktB legB : string) : string :=
  mktA +:+ " " +:+ legA +:+ sep +:+ mktB +:+ " " +:+ legB.

Definition missing_line (c : combo) : string :=
  let '(mktA, legA, mktB, legB) := c in
  label mktA legA " / " mktB legB +:+ " → missing bids".

Definition evaluation_line (c : combo) (bidA bidB total : spec_float) : string :=
  let '(mktA, legA, mktB, legB) := c in
  label mktA legA " + " mktB legB +:+ " → "
    +:+ format_f 4 bidA +:+ " + " +:+ format_f 4 bidB
    +:+ " = " +:+ format_f 4 total.

Definition alert_message (c : combo) (total : spec_float) : string :=
  let '(mktA, legA, mktB, legB) := c in
  "💰 <b>EXIT OPPORTUNITY</b>" +:+ nl +:+ nl
    +:+ label mktA legA " + " mktB legB +:+ nl
    +:+ "Bid sum: <b>" +:+ format_f 4 total +:+ "</b>" +:+ nl
    +:+ "Threshold: " +:+ format_f 2 THRESHOLD +:+ nl +:+ nl
    +:+ "Consider selling both positions.".

(** The body of the loop of [scan_exit_opportunities]. *)
Definition scan_combo (c : combo) : M unit :=
  let '(mktA, legA, mktB, legB) := c in
  tA <- lift (token_of mktA legA) ;;
  tB <- lift (token_of mktB legB) ;;
  bidA <- best_bid tA ;;
  bidB <- best_bid tB ;;
  match bidA, bidB with
  | Some a, Some b =>
      let total := float_add a b in
      print (evaluation_line c a b total) ;;
      if float_ge total THRESHOLD then
        telegram_send (alert_message c total) ;;
        print "🚨 Alert sent"
      else ret tt
  | _, _ => print (missing_line c)
  end.

Definition scan_combos (combos : list combo) : M unit :=
  for_each combos scan_combo.

Definition scan_exit_opportunities : M unit :=
  print (nl +:+ "🔍 Polymarket EXIT monitor (using bids)" +:+ nl) ;;
  scan_combos MONITORED_COMBOS.

(** ** MAIN *)

Definition crash_message (e : exn) : string :=
  "❌ Exit monitor crashed:" +:+ nl +:+ exn_text e.

(** [try: body  except Exception as e: telegram_send(...); raise]. *)
Definition guarded (body : M unit) : M unit :=
  try_except body (fun e => telegram_send (crash_message e) ;; raise e).

Definition main : M unit := guarded scan_exit_opportunities.

End Program.

(* ===================================================================== *)
(** * Vocabulary of the specification *)
(* ===================================================================== *)

(** An entry of a bid list is expected to be a JSON object. *)
Definition is_mapping (b : PyVal) : bool :=
  match b with
  | PyDict _ => true
  | _ => false
  end.

(** The price of one entry after numeric coercion, when there is one. *)
Definition entry_price (b : PyVal) : option spec_float :=
  match py_get b "price" with
  | Ok price => safe_float price
  | Raise _ => None
  end.

(** The numeric-coercible prices of a bid list, in list order. *)
Definition coercible_prices (bids : list PyVal) : list spec_float :=
  omap entry_price bids.

(** The prices that are numbers: the coercible prices other than NaN. *)
Definition numbers (ps : list spec_float) : list spec_float :=
  filter (λ p, is_nan p = false) ps.

(** [m] is a maximum of [ps]: it occurs in [ps] and no element exceeds it. *)
Definition is_maximum (m : spec_float) (ps : list spec_float) : Prop :=
  m ∈ ps ∧ ∀ p, p ∈ ps → SFleb p m = true.

(** The running maximum of [best_bid] as a left fold over the entries. *)
Definition running_best (bids : list PyVal) (best : option spec_float)
    : option spec_float :=
  fold_left (fun acc b => update_best (entry_price b) acc) bids best.

(** Both lookups of a combination succeed. *)
Definition resolves (c : combo) : Prop :=
  ∃ tA tB, token_of c.1.1.1 c.1.1.2 = Ok tA ∧ token_of c.1.2 c.2 = Ok tB.

Definition is_KeyError (e : exn) : bool :=
  match e with
  | KeyError _ => true
  | _ => false
  end.

Definition warning_line : string := "⚠️ Telegram not configured".

(** The events by which a call of the Notifier shows in the trace: the
    HTTP POST it makes or, without credentials, the warning it prints. *)
Definition is_notifier_mark (ev : event) : bool :=
  match ev with
  | HttpPost _ _ _ _ _ => true
  | Printed text => String.eqb text warning_line
  | HttpGet _ _ _ => false
  end.

Definition notifier_calls (h : list event) : nat :=
  length (filter (fun ev => is_notifier_mark ev = true) h).

(** The request the Notifier makes for [msg]. *)
Definition telegram_request (E : Env) (msg : string) : event :=
  HttpPost ("https://api.telegram.org/bot"
              +:+ env_text (TELEGRAM_BOT_TOKEN E) +:+ "/sendMessage")
    (TELEGRAM_CHAT_ID E) msg "HTML" 6.

(** What one call of the Notifier adds to the trace [t]. *)
Definition telegram_events (E : Env) (msg : string) (t : list event)
    : list event :=
  if unset (TELEGRAM_BOT_TOKEN E) || unset (TELEGRAM_CHAT_ID E) then
    [Printed warning_line]
  else
    match network E (t ++ [telegram_request E msg]) with
    | Ok _ => [telegram_request E msg]
    | Raise e =>
        [telegram_request E msg; Printed ("Telegram error: " +:+ exn_text e)]
    end.

(** The request the Order Book Client makes for [token_id]. *)
Definition orderbook_request (token_id : string) : event :=
  HttpGet ORDERBOOK_URL token_id 6.

(** [raise_for_status] raises for this response. *)
Definition error_status (r : response) : bool :=
  (400 <=? status_code r) && (status_code r <? 600).

(** What the Order Book Client returns for an outcome of its request. *)
Definition fetched (outcome : result response) : PyVal :=
  match outcome with
  | Raise _ => PyNone
  | Ok r =>
      if error_status r then PyNone
      else match json r with
           | Ok body => body
           | Raise _ => PyNone
           end
  end.

(** A JSON array. *)
Definition is_list (v : PyVal) : bool :=
  match v with
  | PyList _ => true
  | _ => false
  end.

(** The identifiers of the order books requested in a trace, in order. *)
Definition get_token (ev : event) : option string :=
  match ev with
  | HttpGet _ token_id _ => Some token_id
  | _ => None
  end.

Definition get_tokens (h : list event) : list string := omap get_token h.

(** The two identifiers of a combination, when both resolve. *)
Definition combo_tokens (c : combo) : list string :=
  match token_of c.1.1.1 c.1.1.2, token_of c.1.2 c.2 with
  | Ok tA, Ok tB => [tA; tB]
  | _, _ => []
  end.


(** The documented shape of what a fetch gives: the "no value" marker, or
    an object that has no ["bids"] or has an array of objects there. *)
Definition well_shaped (raw : PyVal) : Prop :=
  raw = PyNone
  ∨ ∃ d : gmap string PyVal,
      raw = PyDict d
      ∧ (d !! "bids" = None
         ∨ ∃ bids, d !! "bids" = Some (PyList bids)
                   ∧ Forall (λ b, is_mapping b = true) bids).

(** A run in which every fetch gives a value of the documented shape. *)
Definition well_shaped_run (E : Env) : Prop :=
  ∀ h token_id,
    well_shaped (fetched (network E (h ++ [orderbook_request token_id]))).

(** The text of the price [n / 10^digits] with [digits] decimals converts to
    a number that prints back as the same text. *)
Definition round_trips (digits : nat) (n : Z) : bool :=
  match safe_float (PyStr (fixed digits n)) with
  | Some f => String.eqb (format_f digits f) (fixed digits n)
  | None => false
  end.

(** The byte pair C2 A0: a no-break space. *)
Definition nbsp : string :=
  String (ascii_of_nat 194) (String (ascii_of_nat 160) "").

(** ** Concrete environments, for running the program *)

Definition is_request (ev : event) : bool :=
  match ev with
  | Printed _ => false
  | _ => true
  end.

(** A network that answers the n-th request with the n-th element of
    [answers] and fails once they are used up. *)
Definition scripted (answers : list (result response)) (h : list event)
    : result response :=
  nth (length (filter (fun ev => is_request ev = true) h) - 1) answers
    (Raise (ConnectionError "connection refused")).

Definition http_ok (body : PyVal) : result response :=
  Ok {| status_code := 200; json := Ok body |}.

Definition entry (price : PyVal) : PyVal :=
  PyDict {[ "price" := price; "size" := PyStr "10" ]}.

Definition book_fields (bids : list PyVal) : gmap string PyVal :=
  {[ "bids" := PyList bids; "asks" := PyList [] ]}.

Definition book (bids : list PyVal) : PyVal := PyDict (book_fields bids).

(** No credentials: the Notifier only prints its warning. *)
Definition offline (answers : list (result response)) : Env :=
  {| TELEGRAM_BOT_TOKEN := None;
     TELEGRAM_CHAT_ID := None;
     network := scripted answers |}.

(** Both credentials set. *)
Definition online (answers : list (result response)) : Env :=
  {| TELEGRAM_BOT_TOKEN := Some "123:abc";
     TELEGRAM_CHAT_ID := Some "42";
     network := scripted answers |}.

(** ** Concrete snapshots *)

Definition half : spec_float := S754_finite false 4503599627370496 (-53).

(** Three entries, the second with a price that is not a number. *)
Definition sample_bids : list PyVal :=
  [entry (PyStr "0.52"); entry (PyStr "abc"); entry (PyStr "0.5")].

(** A NaN price ahead of an ordinary one. *)
Definition nan_first_bids : list PyVal :=
  [entry (PyStr "nan"); entry (PyStr "0.5")].

(** Entries without a usable price: malformed text, no ["price"] key, a
    JSON [null] and a nested list. *)
Definition priceless_bids : list PyVal :=
  [entry (PyStr "abc"); PyDict {[ "size" := PyStr "10" ]};
   entry PyNone; entry (PyList [PyInt 1])].

(** A bid list with an entry that is a bare string. *)
Definition malformed_bids : list PyVal :=
  [entry (PyStr "0.52"); PyStr "0.5"].

(** ** Concrete runs *)

Definition sample_env : Env := offline [http_ok (book sample_bids)].

Definition nan_first_env : Env := offline [http_ok (book nan_first_bids)].

Definition priceless_env : Env := offline [http_ok (book priceless_bids)].

Definition malformed_env : Env :=
  online [http_ok (book malformed_bids);
          Ok {| status_code := 200; json := Ok PyNone |}].

(** The server answers 304 with a body that parses. *)
Definition not_modified_env : Env :=
  offline [Ok {| status_code := 304; json := Ok (book sample_bids) |}].

(** The first monitored combination and its two identifiers. *)
Definition first_combo : combo := ("CUT25", "YES", "CUTCUTPAUSE", "YES").

Definition first_tokenA : string :=
  "92703761682322480664976766247614127878023988651992837287050266308961660624165".

Definition first_tokenB : string :=
  "113401754986342384261044700457165882158632153698445535217371023842472815025478".

(** Best bids 0.52 and 0.50, and the POST of the alert goes through. *)
Definition alert_env : Env :=
  online [http_ok (book [entry (PyStr "0.52")]);
          http_ok (book [entry (PyStr "0.50")]);
          Ok {| status_code := 200; json := Ok PyNone |}].

(** Best bids 0.40 and 0.55. *)
Definition quiet_env : Env :=
  online [http_ok (book [entry (PyStr "0.40")]);
          http_ok (book [entry (PyStr "0.55")])].

(** The first fetch times out, the second has a best bid of 0.60. *)
Definition missing_env : Env :=
  online [Raise (Timeout "Read timed out.");
          http_ok (book [entry (PyStr "0.60")])].


(** An object whose ["bids"] is [null]. *)
Definition null_bids_fields : gmap string PyVal :=
  {[ "bids" := PyNone; "asks" := PyList [] ]}.

(** The network is down: every request fails. *)
Definition down_env : Env := offline [].

(** Best bids 0.51 and 0.50, whose sum is the threshold itself. *)
Definition boundary_env : Env :=
  offline [http_ok (book [entry (PyStr "0.51")]);
           http_ok (book [entry (PyStr "0.50")])].

(** The first combination has bids 0.40 and 0.55; the first snapshot of the
    second combination has a bare string in its bid list. *)
Definition abort_env : Env :=
  online [http_ok (book [entry (PyStr "0.40")]);
          http_ok (book [entry (PyStr "0.55")]);
          http_ok (book malformed_bids)].

Definition second_combo : combo := ("NOCHANGE", "YES", "CUTCUTCUT", "YES").

Definition second_tokenA : string :=
  "112838095111461683880944516726938163688341306245473734071798778736646352193304".

Definition second_tokenB : string :=
  "95417221270011105499568468828531867453865533932484364685389046548264041887861".

(** A NaN best bid for the first leg and 0.60 for the second. *)
Definition nan_bid_env : Env :=
  online [http_ok (book [entry (PyStr "nan")]);
          http_ok (book [entry (PyStr "0.60")])].

(* ===================================================================== *)
(** * The order on floats *)
(* ===================================================================== *)

Section FloatOrder.

(** Case analysis on the comparisons inside [SFcompare]. *)
Ltac compare_cases :=
  repeat match goal with
    | |- context [Pos.compare_cont Eq ?a ?b] =>
        change (Pos.compare_cont Eq a b) with (Pos.compare a b)
    | |- context [Z.compare ?a ?b] => destruct (Z.compare_spec a b)
    | |- context [Pos.compare ?a ?b] => destruct (Pos.compare_spec a b)
    end;
  simpl; intros; subst;
  try discriminate; try reflexivity; try (exfalso; lia).

Ltac float_cases x :=
  destruct x as [[]|[]| |[] ? ?]; simpl; try discriminate; try reflexivity.

Lemma SFleb_refl x : is_nan x = false → SFleb x x = true.
Proof.
  unfold SFleb, SFcompare. float_cases x; intros _; compare_cases.
Qed.

Lemma SFltb_SFleb x y : SFltb x y = true → SFleb x y = true.
Proof.
  unfold SFltb, SFleb. destruct (SFcompare x y) as [[]|]; congruence.
Qed.

Lemma SFltb_false_SFleb x y :
  is_nan x = false → is_nan y = false →
  SFltb x y = false → SFleb y x = true.
Proof.
  unfold SFltb, SFleb, SFcompare.
  float_cases x; float_cases y; intros _ _; compare_cases.
Qed.

Lemma SFltb_true_SFleb_false x y : SFltb x y = true → SFleb y x = false.
Proof.
  unfold SFltb, SFleb, SFcompare.
  float_cases x; float_cases y; compare_cases.
Qed.

Lemma SFleb_trans x y z :
  SFleb x y = true → SFleb y z = true → SFleb x z = true.
Proof.
  unfold SFleb, SFcompare.
  float_cases x; float_cases y; float_cases z; compare_cases.
Qed.

Lemma SFleb_nan_r x : SFleb x S754_nan = false.
Proof. unfold SFleb, SFcompare. now destruct x as [[]|[]| |[] ? ?]. Qed.

Lemma SFltb_nan_r x : SFltb x S754_nan = false.
Proof. unfold SFltb, SFcompare. now destruct x as [[]|[]| |[] ? ?]. Qed.

Lemma SFltb_nan_l x : SFltb S754_nan x = false.
Proof. reflexivity. Qed.

End FloatOrder.

(* ===================================================================== *)
(** * The Best-Bid Extractor *)
(* ===================================================================== *)

Section BestBid.

Variable E : Env.

Lemma best_bid_after_fetch token_id t raw t' :
  fetch_orderbook E token_id t = (Ok raw, t') →
  best_bid E token_id t = (best_of raw, t').
Proof. intros H. unfold best_bid, bind, lift. now rewrite H. Qed.

Lemma truthy_dict_with_key (d : gmap string PyVal) k v :
  d !! k = Some v → truthy (PyDict d) = true.
Proof.
  intros H. simpl. destruct (map_to_list d) eqn:Hl; [|done].
  apply map_to_list_empty_iff in Hl. subst d.
  now rewrite lookup_empty in H.
Qed.

(** A snapshot that is an object with a list under ["bids"]: the result is
    that of the loop over the list. *)
Lemma best_of_bid_list (d : gmap string PyVal) bids :
  d !! "bids" = Some (PyList bids) →
  best_of (PyDict d) = best_loop bids None.
Proof.
  intros H. unfold best_of.
  rewrite (truthy_dict_with_key _ _ _ H). simpl. now rewrite H.
Qed.

Lemma entry_price_mapping b :
  is_mapping b = true →
  ∃ price, py_get b "price" = Ok price ∧ entry_price b = safe_float price.
Proof.
  destruct b; try discriminate. intros _. unfold entry_price. simpl. eauto.
Qed.

(** On entries that are all objects the loop never raises and is the left
    fold of [update_best] over the entries' prices. *)
Lemma best_loop_running bids :
  ∀ best, Forall (λ b, is_mapping b = true) bids →
          best_loop bids best = Ok (running_best bids best).
Proof.
  induction bids as [|b bids IH]; intros best Hall; [done|].
  inversion Hall as [|? ? Hb Hrest]; subst.
  destruct (entry_price_mapping b Hb) as (price & Hget & Hprice).
  simpl. rewrite Hget. simpl. unfold running_best. simpl.
  rewrite Hprice. now apply IH.
Qed.

Lemma coercible_prices_cons b bids :
  coercible_prices (b :: bids) =
  match entry_price b with
  | Some p => p :: coercible_prices bids
  | None => coercible_prices bids
  end.
Proof. reflexivity. Qed.

Lemma numbers_cons p ps :
  numbers (p :: ps) = if is_nan p then numbers ps else p :: numbers ps.
Proof.
  unfold numbers. rewrite filter_cons.
  destruct (is_nan p); by destruct (decide _).
Qed.

(** One turn of the loop keeps [best] a maximum of the numbers seen. *)
Lemma update_best_invariant seen bv p :
  is_nan bv = false →
  is_maximum bv seen →
  ∃ bv', update_best (Some p) (Some bv) = Some bv'
         ∧ is_nan bv' = false
         ∧ is_maximum bv' (seen ++ numbers [p]).
Proof.
  intros Hbv [Hin Hmax]. simpl. unfold float_gt.
  rewrite numbers_cons. change (numbers []) with (@nil spec_float).
  destruct (SFltb bv p) eqn:Hlt.
  - assert (Hp : is_nan p = false).
    { destruct p; try done. by rewrite SFltb_nan_r in Hlt. }
    rewrite Hp. exists p. split; [done|]. split; [done|]. split.
    + apply elem_of_app. right. by apply list_elem_of_singleton.
    + intros q Hq. apply elem_of_app in Hq as [Hq|Hq].
      * eapply SFleb_trans; [by apply Hmax|by apply SFltb_SFleb].
      * apply list_elem_of_singleton in Hq. subst q. by apply SFleb_refl.
  - exists bv. split; [done|]. split; [done|]. split.
    + apply elem_of_app. by left.
    + intros q Hq. apply elem_of_app in Hq as [Hq|Hq]; [by apply Hmax|].
      destruct (is_nan p) eqn:Hp; [by apply not_elem_of_nil in Hq|].
      apply list_elem_of_singleton in Hq. subst q.
      by apply SFltb_false_SFleb.
Qed.

(** The invariant of the loop: once [best] is a number and a maximum of
    the numbers seen so far, it stays one to the end of the list. *)
Lemma running_best_invariant bids :
  ∀ seen bv,
    is_nan bv = false →
    is_maximum bv seen →
    ∃ m, running_best bids (Some bv) = Some m
         ∧ is_nan m = false
         ∧ is_maximum m (seen ++ numbers (coercible_prices bids)).
Proof.
  induction bids as [|b bids IH]; intros seen bv Hbv Hmax.
  - exists bv. simpl. rewrite app_nil_r. done.
  - rewrite coercible_prices_cons. unfold running_best. simpl.
    destruct (entry_price b) as [p|] eqn:Hp.
    + destruct (update_best_invariant seen bv p Hbv Hmax)
        as (bv' & Hstep & Hbv' & Hmax').
      rewrite Hstep.
      destruct (IH (seen ++ numbers [p]) bv' Hbv' Hmax') as (m & Hm & Hmn & Hmm).
      exists m. split; [exact Hm|]. split; [exact Hmn|].
      rewrite <- app_assoc in Hmm.
      replace (numbers (p :: coercible_prices bids))
        with (numbers [p] ++ numbers (coercible_prices bids)); [done|].
      rewrite !numbers_cons. by destruct (is_nan p).
    + simpl. by apply IH.
Qed.

(** From the start of the loop: the first coercible price decides.  If it
    is a number, the result is a maximum of the numbers among the
    coercible prices. *)
Lemma running_best_from_none bids p0 :
  head (coercible_prices bids) = Some p0 →
  is_nan p0 = false →
  ∃ m, running_best bids None = Some m
       ∧ is_maximum m (numbers (coercible_prices bids)).
Proof.
  induction bids as [|b bids IH]; intros Hhead Hp0; [done|].
  rewrite coercible_prices_cons in *. unfold running_best. simpl.
  destruct (entry_price b) as [p|] eqn:Hp; simpl.
  - injection Hhead as ->.
    destruct (running_best_invariant bids [p0] p0 Hp0) as (m & Hm & _ & Hmm).
    { split; [by apply list_elem_of_singleton|].
      intros q Hq. apply list_elem_of_singleton in Hq. subst q. by apply SFleb_refl. }
    exists m. split; [exact Hm|]. rewrite numbers_cons, Hp0. exact Hmm.
  - by apply IH.
Qed.



Lemma running_best_no_price bids best :
  coercible_prices bids = [] → running_best bids best = best.
Proof.
  revert best. induction bids as [|b bids IH]; intros best H; [done|].
  rewrite coercible_prices_cons in H. unfold running_best. simpl.
  destruct (entry_price b) as [p|] eqn:Hp; [done|]. simpl. by apply IH.
Qed.

End BestBid.

Section BestBidClaims.

Variable E : Env.

(** C1 (amended).  For every order-book snapshot that is an object whose
    ["bids"] is a list of objects, with at least one entry whose price
    coerces and with a first coercible price that is not a NaN, [best_bid]
    returns the maximum of the coercible prices that are numbers; entries
    whose price fails coercion are ignored, and the result is the running
    maximum of one left-to-right pass over the entries. *)
Theorem best_bid_maximum token_id t t' (d : gmap string PyVal) bids p0 :
  fetch_orderbook E token_id t = (Ok (PyDict d), t') →
  d !! "bids" = Some (PyList bids) →
  Forall (λ b, is_mapping b = true) bids →
  head (coercible_prices bids) = Some p0 →
  is_nan p0 = false →
  ∃ m, best_bid E token_id t = (Ok (Some m), t')
       ∧ is_maximum m (numbers (coercible_prices bids))
       ∧ running_best bids None = Some m.
Proof.
  intros Hfetch Hbids Hmap Hhead Hp0.
  destruct (running_best_from_none bids p0 Hhead Hp0) as (m & Hrun & Hmax).
  exists m. split; [|done].
  rewrite (best_bid_after_fetch E _ _ _ _ Hfetch).
  rewrite (best_of_bid_list d bids Hbids).
  rewrite (best_loop_running bids None Hmap). by rewrite Hrun.
Qed.


(** C2 (amended).  When the fetched snapshot is the "no value" marker or
    another falsy value, or an object, array or string that does not
    contain ["bids"], or an object whose ["bids"] is a list of objects that
    is empty or has only entries whose price fails numeric coercion,
    [best_bid] returns the "no value" marker. *)
Theorem best_bid_no_value token_id t t' raw :
  fetch_orderbook E token_id t = (Ok raw, t') →
  truthy raw = false
  ∨ py_in "bids" raw = Ok false
  ∨ (∃ (d : gmap string PyVal) bids,
       raw = PyDict d ∧ d !! "bids" = Some (PyList bids)
       ∧ Forall (λ b, is_mapping b = true) bids
       ∧ coercible_prices bids = []) →
  best_bid E token_id t = (Ok None, t').
Proof.
  intros Hfetch Hraw.
  rewrite (best_bid_after_fetch E _ _ _ _ Hfetch). f_equal.
  destruct Hraw as [Hfalsy|[Hin|(d & bids & -> & Hd & Hmap & Hnone)]].
  - unfold best_of. by rewrite Hfalsy.
  - unfold best_of. destruct (truthy raw); [|done]. simpl. by rewrite Hin.
  - rewrite (best_of_bid_list d bids Hd).
    rewrite (best_loop_running bids None Hmap).
    by rewrite (running_best_no_price bids None Hnone).
Qed.

(** The loop stops with [AttributeError] at the first entry that is not
    an object. *)
Lemma best_loop_raises pre x post best :
  Forall (λ b, is_mapping b = true) pre →
  is_mapping x = false →
  best_loop (pre ++ x :: post) best =
  Raise (AttributeError ("'" +:+ type_name x +:+ "' object has no attribute 'get'")).
Proof.
  revert best. induction pre as [|b pre IH]; intros best Hpre Hx.
  - simpl. by destruct x.
  - inversion Hpre as [|? ? Hb Hrest]; subst.
    destruct (entry_price_mapping b Hb) as (price & Hget & _).
    simpl. rewrite Hget. simpl. by apply IH.
Qed.

End BestBidClaims.

(** C1 as stated fails, in two ways.  With a NaN price ahead of 0.5 every
    condition of the claim is met and [best_bid] returns the NaN, which is
    a maximum neither of the coercible prices (0.5 is not below it) nor of
    the numbers among them (it is not one of them).  And a bid list that
    has an entry with a coercible price next to an entry that is not an
    object makes [best_bid] raise. *)
Lemma best_bid_nan_first_not_maximum :
  (fetch_orderbook nan_first_env "tok" [] =
     (Ok (PyDict (book_fields nan_first_bids)), [orderbook_request "tok"])
   ∧ book_fields nan_first_bids !! "bids" = Some (PyList nan_first_bids)
   ∧ Forall (λ b, is_mapping b = true) nan_first_bids
   ∧ coercible_prices nan_first_bids = [S754_nan; half]
   ∧ best_bid nan_first_env "tok" [] = (Ok (Some S754_nan), [orderbook_request "tok"])
   ∧ ¬ (∃ m, best_bid nan_first_env "tok" [] = (Ok (Some m), [orderbook_request "tok"])
             ∧ (is_maximum m (coercible_prices nan_first_bids)
                ∨ is_maximum m (numbers (coercible_prices nan_first_bids)))))
  ∧ (fetch_orderbook malformed_env "tok" [] =
       (Ok (PyDict (book_fields malformed_bids)), [orderbook_request "tok"])
     ∧ book_fields malformed_bids !! "bids" = Some (PyList malformed_bids)
     ∧ coercible_prices malformed_bids = [float_of_decimal false 52 (-2)]
     ∧ best_bid malformed_env "tok" [] =
       (Raise (AttributeError "'str' object has no attribute 'get'"),
        [orderbook_request "tok"])).
Proof.
  split; [split; [|split; [|split; [|split; [|split]]]]|].
  - vm_compute. reflexivity.
  - vm_compute. reflexivity.
  - unfold nan_first_bids, entry. repeat constructor.
  - vm_compute. reflexivity.
  - vm_compute. reflexivity.
  - intros (m & Hrun & Hmax).
    assert (m = S754_nan) as -> by (vm_compute in Hrun; congruence).
    destruct Hmax as [[_ Hmax]|[Hin _]].
    + specialize (Hmax half). rewrite SFleb_nan_r in Hmax.
      discriminate Hmax. vm_compute.
      apply list_elem_of_further, list_elem_of_here.
    + vm_compute in Hin. apply list_elem_of_singleton in Hin. discriminate Hin.
  - repeat split; vm_compute; reflexivity.
Qed.

(** C2 as stated fails: a snapshot that is the number 5 has no bid list, an
    object whose ["bids"] is [null] has none either, and a bid list whose
    only entry is the string abc has no entry with a coercible price; on
    each of them [best_bid] raises instead of returning the "no value"
    marker. *)
Lemma best_bid_raises_without_bids :
  (fetch_orderbook (offline [http_ok (PyInt 5)]) "tok" [] =
     (Ok (PyInt 5), [orderbook_request "tok"])
   ∧ best_bid (offline [http_ok (PyInt 5)]) "tok" [] =
     (Raise (TypeError "argument of type 'int' is not iterable"),
      [orderbook_request "tok"]))
  ∧ (fetch_orderbook (offline [http_ok (PyDict null_bids_fields)]) "tok" [] =
       (Ok (PyDict null_bids_fields), [orderbook_request "tok"])
     ∧ null_bids_fields !! "bids" = Some PyNone
     ∧ best_bid (offline [http_ok (PyDict null_bids_fields)]) "tok" [] =
       (Raise (TypeError "'NoneType' object is not iterable"),
        [orderbook_request "tok"]))
  ∧ (fetch_orderbook (offline [http_ok (book [PyStr "abc"])]) "tok" [] =
       (Ok (book [PyStr "abc"]), [orderbook_request "tok"])
     ∧ coercible_prices [PyStr "abc"] = []
     ∧ best_bid (offline [http_ok (book [PyStr "abc"])]) "tok" [] =
       (Raise (AttributeError "'str' object has no attribute 'get'"),
        [orderbook_request "tok"])).
Proof. repeat split; vm_compute; reflexivity. Qed.

(* ===================================================================== *)
(** * The Notifier and the Order Book Client *)
(* ===================================================================== *)

Section Strings.

Lemma prefix_append x post : String.prefix x (x +:+ post) = true.
Proof.
  induction x as [|c x IH]; simpl; [by destruct post|].
  destruct (ascii_dec c c); [apply IH|congruence].
Qed.

Lemma is_substring_unfold x s :
  is_substring x s =
  String.prefix x s ||
  match s with
  | EmptyString => false
  | String _ rest => is_substring x rest
  end.
Proof. by destruct s. Qed.

Lemma is_substring_here x post : is_substring x (x +:+ post) = true.
Proof. rewrite is_substring_unfold. by rewrite prefix_append. Qed.

Lemma is_substring_skip x pre s :
  is_substring x s = true → is_substring x (pre +:+ s) = true.
Proof.
  intros H. induction pre as [|c pre IH]; [done|].
  simpl. rewrite IH. apply orb_true_r.
Qed.

Lemma prefix_refl x : String.prefix x x = true.
Proof.
  induction x as [|c x IH]; [done|]. simpl.
  destruct (ascii_dec c c); [apply IH|congruence].
Qed.

Lemma is_substring_refl x : is_substring x x = true.
Proof. rewrite is_substring_unfold. by rewrite prefix_refl. Qed.

Lemma prefix_append_l x s post :
  String.prefix x s = true → String.prefix x (s +:+ post) = true.
Proof.
  revert x. induction s as [|c s IH]; intros x H.
  - destruct x; [|done]. simpl. by destruct post.
  - destruct x as [|d x]; [done|]. simpl in *.
    destruct (ascii_dec d c); [by apply IH|done].
Qed.

Lemma is_substring_append_l x s post :
  is_substring x s = true → is_substring x (s +:+ post) = true.
Proof.
  induction s as [|c s IH]; intros H.
  - rewrite is_substring_unfold in H. rewrite orb_false_r in H.
    rewrite is_substring_unfold. by rewrite (prefix_append_l _ _ post H).
  - rewrite is_substring_unfold in H. apply orb_true_iff in H as [H|H].
    + rewrite is_substring_unfold. by rewrite (prefix_append_l _ _ post H).
    + simpl. rewrite (IH H). apply orb_true_r.
Qed.

End Strings.

(** Finds a part inside a concatenation. *)
Ltac find_substring :=
  match goal with
  | |- is_substring ?x ?x = true => apply is_substring_refl
  | |- is_substring _ (_ +:+ _) = true => apply is_substring_here
  | |- is_substring _ (_ +:+ _) = true => apply is_substring_skip; find_substring
  | |- is_substring _ (_ +:+ _) = true => apply is_substring_append_l; find_substring
  end.

Section Effects.

Variable E : Env.

Lemma notifier_calls_app h1 h2 :
  notifier_calls (h1 ++ h2) = (notifier_calls h1 + notifier_calls h2)%nat.
Proof. unfold notifier_calls. by rewrite filter_app, length_app. Qed.

Lemma notifier_calls_printed text :
  String.eqb text warning_line = false → notifier_calls [Printed text] = 0%nat.
Proof.
  intros H. unfold notifier_calls. rewrite filter_cons. simpl. rewrite H.
  by destruct (decide (false = true)).
Qed.

(** A printed line with a part that the warning does not have is not the
    warning. *)
Lemma not_warning part text :
  is_substring part warning_line = false →
  is_substring part text = true →
  String.eqb text warning_line = false.
Proof.
  intros Hw Ht. destruct (String.eqb_spec text warning_line); [|done].
  subst. congruence.
Qed.

Lemma telegram_events_one_call msg t :
  notifier_calls (telegram_events E msg t) = 1%nat.
Proof.
  unfold telegram_events.
  destruct (unset (TELEGRAM_BOT_TOKEN E) || unset (TELEGRAM_CHAT_ID E)); [done|].
  by destruct (network E (t ++ [telegram_request E msg])).
Qed.

Lemma telegram_send_events msg t :
  telegram_send E msg t = (Ok tt, t ++ telegram_events E msg t).
Proof.
  unfold telegram_send, telegram_events.
  destruct (unset (TELEGRAM_BOT_TOKEN E) || unset (TELEGRAM_CHAT_ID E)); [done|].
  unfold try_except, bind, requests_post, request, print, ret.
  fold (telegram_request E msg).
  destruct (network E (t ++ [telegram_request E msg])) as [r|e]; [done|].
  by rewrite <- app_assoc.
Qed.

(** C6.  For every message the Notifier returns normally.  If a
    credential is unset (or empty) it prints the warning and makes no
    request; otherwise it makes its one POST request and, when that
    raises, prints the error and still returns normally, so the caller
    sees the same outcome whether or not the message was delivered. *)
Theorem telegram_send_never_raises msg t :
  ∃ added,
    telegram_send E msg t = (Ok tt, t ++ added)
    ∧ (unset (TELEGRAM_BOT_TOKEN E) || unset (TELEGRAM_CHAT_ID E) = true →
       added = [Printed warning_line])
    ∧ (unset (TELEGRAM_BOT_TOKEN E) || unset (TELEGRAM_CHAT_ID E) = false →
       match network E (t ++ [telegram_request E msg]) with
       | Ok _ => added = [telegram_request E msg]
       | Raise e =>
           added = [telegram_request E msg;
                    Printed ("Telegram error: " +:+ exn_text e)]
       end).
Proof.
  exists (telegram_events E msg t). split; [apply telegram_send_events|].
  unfold telegram_events.
  destruct (unset (TELEGRAM_BOT_TOKEN E) || unset (TELEGRAM_CHAT_ID E));
    split; intros H; try discriminate H; [done|].
  by destruct (network E (t ++ [telegram_request E msg])).
Qed.

Lemma fetch_orderbook_fetched token_id t :
  fetch_orderbook E token_id t =
  (Ok (fetched (network E (t ++ [orderbook_request token_id]))),
   t ++ [orderbook_request token_id]).
Proof.
  unfold fetch_orderbook, try_except, bind, requests_get, request.
  fold (orderbook_request token_id).
  destruct (network E (t ++ [orderbook_request token_id])) as [r|e]; [|done].
  unfold raise_for_status, fetched, error_status.
  destruct ((400 <=? status_code r) && (status_code r <? 600)); [done|].
  unfold ret, lift. by destruct (json r).
Qed.

(** C5 (amended).  For every instrument identifier and every outcome of
    the HTTP request the Order Book Client returns normally: the parsed
    structure when the request returns a response whose status is outside
    400-599 (a 2xx status, but also 1xx, 3xx or 600 and above) and whose
    body parses, and the "no value" marker when the request raises
    (network failure, timeout), when the status is in 400-599, and when the
    body does not parse. *)
Theorem fetch_orderbook_never_raises token_id t :
  ∃ v,
    fetch_orderbook E token_id t = (Ok v, t ++ [orderbook_request token_id])
    ∧ match network E (t ++ [orderbook_request token_id]) with
      | Raise _ => v = PyNone
      | Ok r =>
          (400 <= status_code r < 600 → v = PyNone)
          ∧ (¬ 400 <= status_code r < 600 →
             ∀ body, json r = Ok body → v = body)
          ∧ (∀ e, json r = Raise e → v = PyNone)
      end.
Proof.
  exists (fetched (network E (t ++ [orderbook_request token_id]))).
  split; [apply fetch_orderbook_fetched|].
  destruct (network E (t ++ [orderbook_request token_id])) as [r|e]; [|done].
  unfold fetched, error_status. repeat split.
  - intros Hs.
    replace ((400 <=? status_code r) && (status_code r <? 600)) with true
      by (symmetry; apply andb_true_iff; split; lia).
    done.
  - intros Hs body Hb.
    replace ((400 <=? status_code r) && (status_code r <? 600)) with false
      by (symmetry; apply andb_false_iff; lia).
    by rewrite Hb.
  - intros e He. rewrite He. by destruct (_ && _).
Qed.

(** C5 as stated fails: a response with the status 304, which is not a 2xx
    status, and a body that parses is no exception for the client, which
    returns the parsed body and not the "no value" marker. *)
Lemma fetch_orderbook_returns_non_2xx_body :
  network not_modified_env [orderbook_request "tok"] =
    Ok {| status_code := 304; json := Ok (book sample_bids) |}
  ∧ ¬ 200 <= 304 < 300
  ∧ fetch_orderbook not_modified_env "tok" [] =
    (Ok (book sample_bids), [orderbook_request "tok"])
  ∧ book sample_bids ≠ PyNone.
Proof.
  split; [vm_compute; reflexivity|]. split; [lia|].
  split; [vm_compute; reflexivity|]. discriminate.
Qed.

Lemma best_bid_trace token_id t :
  best_bid E token_id t =
  (best_of (fetched (network E (t ++ [orderbook_request token_id]))),
   t ++ [orderbook_request token_id]).
Proof.
  apply best_bid_after_fetch, fetch_orderbook_fetched.
Qed.

End Effects.

(* ===================================================================== *)
(** * The Opportunity Scanner *)
(* ===================================================================== *)

Section Scanner.

Variable E : Env.

(** The loop body once both identifiers resolve and both fetches return. *)
Lemma scan_combo_bids mktA legA mktB legB tA tB bidA bidB t t1 t2 :
  token_of mktA legA = Ok tA →
  token_of mktB legB = Ok tB →
  best_bid E tA t = (Ok bidA, t1) →
  best_bid E tB t1 = (Ok bidB, t2) →
  scan_combo E (mktA, legA, mktB, legB) t =
  match bidA, bidB with
  | Some a, Some b =>
      (print (evaluation_line (mktA, legA, mktB, legB) a b (float_add a b)) ;;
       if float_ge (float_add a b) THRESHOLD then
         telegram_send E (alert_message (mktA, legA, mktB, legB) (float_add a b)) ;;
         print "🚨 Alert sent"
       else ret tt) t2
  | _, _ => print (missing_line (mktA, legA, mktB, legB)) t2
  end.
Proof.
  intros HA HB HbA HbB. unfold scan_combo, bind, lift.
  rewrite HA, HB, HbA, HbB. by destruct bidA, bidB.
Qed.

Lemma scan_combos_cons c rest t :
  scan_combos E (c :: rest) t =
  match scan_combo E c t with
  | (Ok _, t') => scan_combos E rest t'
  | (Raise e, t') => (Raise e, t')
  end.
Proof. reflexivity. Qed.

Lemma evaluation_line_not_warning c a b total :
  String.eqb (evaluation_line c a b total) warning_line = false.
Proof.
  destruct c as [[[mktA legA] mktB] legB].
  apply (not_warning " + "); [done|].
  unfold evaluation_line, label. find_substring.
Qed.

Lemma missing_line_not_warning c :
  String.eqb (missing_line c) warning_line = false.
Proof.
  destruct c as [[[mktA legA] mktB] legB].
  apply (not_warning " / "); [done|].
  unfold missing_line, label. find_substring.
Qed.

(** C3.  For a combination whose two best bids are both present, with
    [total = bidA + bidB]: the evaluation line, which shows both bids and
    the total with 4 decimals, is always printed; the Notifier is called,
    once and with the alert message, exactly when [total >= THRESHOLD];
    the alert message shows the total with 4 decimals and the threshold
    with 2 decimals (the text 1.01); and when [total < THRESHOLD] the
    evaluation line is all that is added to the trace. *)
Theorem scan_combo_alerts_iff_threshold
    mktA legA mktB legB tA tB a b t t1 t2 :
  token_of mktA legA = Ok tA →
  token_of mktB legB = Ok tB →
  best_bid E tA t = (Ok (Some a), t1) →
  best_bid E tB t1 = (Ok (Some b), t2) →
  let c := (mktA, legA, mktB, legB) in
  let total := float_add a b in
  let line := evaluation_line c a b total in
  let msg := alert_message c total in
  ∃ t3,
    scan_combo E c t = (Ok tt, t3)
    ∧ t2 = t ++ [orderbook_request tA; orderbook_request tB]
    ∧ t3 = (if float_ge total THRESHOLD
            then t2 ++ [Printed line]
                    ++ telegram_events E msg (t2 ++ [Printed line])
                    ++ [Printed "🚨 Alert sent"]
            else t2 ++ [Printed line])
    ∧ notifier_calls t3 =
        (notifier_calls t2 + (if float_ge total THRESHOLD then 1 else 0))%nat
    ∧ (SFltb total THRESHOLD = true → t3 = t2 ++ [Printed line])
    ∧ is_substring (format_f 4 total) msg = true
    ∧ is_substring (format_f 2 THRESHOLD) msg = true
    ∧ format_f 2 THRESHOLD = "1.01"
    ∧ is_substring (format_f 4 a +:+ " + " +:+ format_f 4 b
                      +:+ " = " +:+ format_f 4 total) line = true.
Proof.
  intros HA HB HbA HbB c total line msg.
  pose proof (scan_combo_bids _ _ _ _ _ _ _ _ _ _ _ HA HB HbA HbB) as Hscan.
  change (scan_combo E c t =
          (print line ;;
           if float_ge total THRESHOLD
           then telegram_send E msg ;; print "🚨 Alert sent"
           else ret tt) t2) in Hscan.
  rewrite Hscan.
  assert (Hcalls : notifier_calls [Printed line] = 0%nat)
    by apply notifier_calls_printed, evaluation_line_not_warning.
  assert (Hrun :
    (print line ;;
     if float_ge total THRESHOLD
     then telegram_send E msg ;; print "🚨 Alert sent"
     else ret tt) t2 =
    (Ok tt, if float_ge total THRESHOLD
            then t2 ++ [Printed line]
                    ++ telegram_events E msg (t2 ++ [Printed line])
                    ++ [Printed "🚨 Alert sent"]
            else t2 ++ [Printed line])).
  { unfold bind at 1. unfold print at 1.
    destruct (float_ge total THRESHOLD); [|done].
    unfold bind. rewrite telegram_send_events. unfold print.
    by rewrite <- !app_assoc. }
  eexists. split; [exact Hrun|]. split.
  { rewrite best_bid_trace in HbA. injection HbA as _ <-.
    rewrite best_bid_trace in HbB. injection HbB as _ <-.
    by rewrite <- app_assoc. }
  split; [done|].
  split; [|split; [|split; [|split; [|split]]]].
  - destruct (float_ge total THRESHOLD).
    + rewrite !notifier_calls_app, Hcalls, telegram_events_one_call.
      change (notifier_calls [Printed "🚨 Alert sent"]) with 0%nat. lia.
    + rewrite notifier_calls_app, Hcalls. lia.
  - intros Hlt. unfold float_ge.
    by rewrite (SFltb_true_SFleb_false _ _ Hlt).
  - unfold msg, alert_message, c. find_substring.
  - unfold msg, alert_message, c. find_substring.
  - by vm_compute.
  - unfold line, evaluation_line, c. find_substring.
Qed.


(** No state is carried from one combination to the next besides the
    trace: scanning a list is scanning its parts one after the other. *)
Lemma scan_combos_app l1 l2 t :
  scan_combos E (l1 ++ l2) t = (scan_combos E l1 ;; scan_combos E l2) t.
Proof.
  revert t. induction l1 as [|c l1 IH]; intros t; [done|].
  simpl. rewrite scan_combos_cons. unfold bind at 1.
  rewrite scan_combos_cons.
  destruct (scan_combo E c t) as [[[]|e] t']; [|done].
  rewrite IH. reflexivity.
Qed.

Lemma guarded_raises body t e t' :
  body t = (Raise e, t') →
  guarded E body t = (Raise e, t' ++ telegram_events E (crash_message e) t').
Proof.
  intros H. unfold guarded, try_except, bind. rewrite H.
  by rewrite telegram_send_events.
Qed.

Lemma guarded_returns body t t' :
  body t = (Ok tt, t') → guarded E body t = (Ok tt, t').
Proof. intros H. unfold guarded, try_except. by rewrite H. Qed.

(** C7.  When an exception escapes the scan, [main] calls the Notifier
    exactly once, with the crash report that has the exception's text,
    and then raises the same exception; when the scan returns, so does
    [main], with nothing added. *)
Theorem main_reports_and_reraises t r t' :
  scan_exit_opportunities E t = (r, t') →
  match r with
  | Raise e =>
      main E t = (Raise e, t' ++ telegram_events E (crash_message e) t')
      ∧ notifier_calls (telegram_events E (crash_message e) t') = 1%nat
      ∧ is_substring (exn_text e) (crash_message e) = true
  | Ok _ => main E t = (r, t')
  end.
Proof.
  intros H. destruct r as [[]|e].
  - by apply guarded_returns.
  - split; [by apply guarded_raises|].
    split; [apply telegram_events_one_call|].
    unfold crash_message. find_substring.
Qed.

End Scanner.

(* ===================================================================== *)
(** * Numeric Coercion and the static configuration *)
(* ===================================================================== *)

Section FloatLiterals.

Lemma lstrip_elem c l : c ∈ lstrip l → c ∈ l.
Proof.
  induction l as [|x l IH]; [done|]. simpl.
  destruct (is_space x); [|done]. intros H. by apply list_elem_of_further, IH.
Qed.

Lemma strip_elem c l : c ∈ strip l → c ∈ l.
Proof.
  unfold strip. intros H.
  apply list_elem_of_In, in_rev, list_elem_of_In, lstrip_elem in H.
  apply list_elem_of_In, in_rev, list_elem_of_In in H.
  by apply lstrip_elem in H.
Qed.

Lemma take_sign_elem c l : c ∈ (take_sign l).2 → c ∈ l.
Proof.
  destruct l as [|x l]; [done|]. simpl.
  destruct (Ascii.eqb x "-"); simpl; [by apply list_elem_of_further|].
  destruct (Ascii.eqb x "+"); simpl; [by apply list_elem_of_further|done].
Qed.

Lemma digitpart_digit l acc r :
  digitpart l acc = Some r → ∃ c, c ∈ l ∧ is_digit c = true.
Proof.
  destruct l as [|x l]; [done|]. simpl.
  destruct (is_digit x) eqn:Hx; [|done]. intros _. exists x.
  split; [apply list_elem_of_here|done].
Qed.

Lemma number_digit l r :
  number l = Some r → ∃ c, c ∈ l ∧ is_digit c = true.
Proof.
  unfold number. destruct (digitpart l 0) as [[[ip n] rest]|] eqn:Hd.
  - intros _. by apply digitpart_digit in Hd.
  - destruct l as [|x l]; [done|].
    destruct (Ascii.eqb x "."); [|done]. intros H.
    apply digitpart_digit in H as (c & Hc & Hdig).
    exists c. split; [by apply list_elem_of_further|done].
Qed.

Lemma word_has_n body word :
  String.eqb (string_of_list_ascii (map lower body)) word = true →
  "n"%char ∈ list_ascii_of_string word →
  ∃ c, c ∈ body ∧ lower c = "n"%char.
Proof.
  intros Heq Hn. apply String.eqb_eq in Heq. subst word.
  rewrite list_ascii_of_string_of_list_ascii in Hn.
  apply list_elem_of_In, in_map_iff in Hn as (c & Hc & Hin).
  exists c. split; [by apply list_elem_of_In|done].
Qed.

(** A literal has a digit or, for [inf], [infinity] and [nan], the letter
    n. *)
Lemma parse_literal_some l f :
  parse_literal l = Some f →
  ∃ c, c ∈ l ∧ (is_digit c = true ∨ lower c = "n"%char).
Proof.
  unfold parse_literal.
  destruct (take_sign (strip l)) as [sg body] eqn:Hsign.
  assert (Hbody : ∀ c, c ∈ body → c ∈ l).
  { intros c Hc. apply strip_elem, take_sign_elem. by rewrite Hsign. }
  destruct (String.eqb (string_of_list_ascii (map lower body)) "inf") eqn:Hinf.
  { intros _. destruct (word_has_n body "inf" Hinf) as (c & Hc & Hn).
    - apply list_elem_of_further, list_elem_of_here.
    - exists c. split; [by apply Hbody|by right]. }
  destruct (String.eqb (string_of_list_ascii (map lower body)) "infinity") eqn:Hinfinity.
  { intros _. destruct (word_has_n body "infinity" Hinfinity) as (c & Hc & Hn).
    - apply list_elem_of_further, list_elem_of_here.
    - exists c. split; [by apply Hbody|by right]. }
  simpl.
  destruct (String.eqb (string_of_list_ascii (map lower body)) "nan") eqn:Hnan.
  { intros _. destruct (word_has_n body "nan" Hnan) as (c & Hc & Hn).
    - apply list_elem_of_here.
    - exists c. split; [by apply Hbody|by right]. }
  destruct (number body) as [[[m nfrac] rest]|] eqn:Hnum; [|done].
  intros _. apply number_digit in Hnum as (c & Hc & Hdig).
  exists c. split; [by apply Hbody|by left].
Qed.

Lemma round_trips_upto digits bound n :
  forallb (round_trips digits) (seqZ 0 (bound + 1)) = true →
  0 <= n <= bound →
  round_trips digits n = true.
Proof.
  intros Hall Hn. rewrite forallb_forall in Hall. apply Hall.
  apply list_elem_of_In, elem_of_seqZ. lia.
Qed.

End FloatLiterals.

(** C8.  Numeric Coercion is a function of its argument alone that always
    returns: the number when [float] converts the value and the "no value"
    marker whenever [float] raises.  A float comes back unchanged; [None],
    lists and objects (wrong type, missing key) give the marker; a string
    gives the marker whenever it has neither a digit nor the letter n
    (abc, the empty string), and fails also for a character outside ASCII
    that is no digit and no white space.  The text of every price with 1
    to 4 decimals between 0 and 1 (0.73 among them) converts to a number
    that prints back as the same text, and 0.73 gives the binary64 number
    within half a unit in the last place of 73/100.  Digits and white
    space outside ASCII convert as their ASCII counterparts. *)
Theorem safe_float_never_raises :
  (∀ x f, float x = Ok f → safe_float x = Some f)
  ∧ (∀ x e, float x = Raise e → safe_float x = None)
  ∧ (∀ f, safe_float (PyFloat f) = Some f)
  ∧ safe_float PyNone = None
  ∧ safe_float (default PyNone ((∅ : gmap string PyVal) !! "price")) = None
  ∧ (∀ l, safe_float (PyList l) = None)
  ∧ (∀ d, safe_float (PyDict d) = None)
  ∧ (∀ s, (∀ l c, ascii_form s = Some l → c ∈ l →
                  is_digit c = false ∧ lower c ≠ "n"%char) →
          safe_float (PyStr s) = None)
  ∧ safe_float (PyStr "abc") = None
  ∧ safe_float (PyStr "0.7é") = None
  ∧ (∀ digits n,
       (1 ≤ digits ≤ 4)%nat → 0 <= n <= 10 ^ Z.of_nat digits →
       ∃ f, safe_float (PyStr (fixed digits n)) = Some f
            ∧ format_f digits f = fixed digits n)
  ∧ fixed 2 73 = "0.73"
  ∧ safe_float (PyStr "0.73") = Some (S754_finite false 6575255455960924 (-53))
  ∧ safe_float (PyStr "0.73") = Some (float_of_decimal false 73 (-2))
  ∧ 2 * Z.abs (100 * 6575255455960924 - 73 * 2 ^ 53) <= 100
  ∧ format_f 2 (S754_finite false 6575255455960924 (-53)) = "0.73"
  ∧ safe_float (PyStr "٠.٥") = Some half
  ∧ safe_float (PyStr (nbsp +:+ "0.5")) = Some half
  ∧ safe_float (PyStr "１") = Some (S754_finite false 4503599627370496 (-52)).
Proof.
  split; [|split; [|split; [|split; [|split; [|split; [|split; [|split]]]]]]].
  - intros x f H. unfold safe_float. by rewrite H.
  - intros x e H. unfold safe_float. by rewrite H.
  - done.
  - done.
  - done.
  - done.
  - done.
  - intros s Hs. unfold safe_float. simpl. unfold parse_float.
    destruct (ascii_form s) as [l|] eqn:Hform; [|done]. simpl.
    destruct (parse_literal l) as [f|] eqn:Hlit; [|done].
    apply parse_literal_some in Hlit as (c & Hc & [Hdig|Hn]);
      destruct (Hs l c eq_refl Hc) as [Hnd Hnn]; congruence.
  - split; [by vm_compute|]. split; [by vm_compute|]. split.
    + intros digits n Hd Hn.
      assert (Hrt : round_trips digits n = true).
      { destruct digits as [|[|[|[|[|k]]]]]; try lia.
        - apply (round_trips_upto 1 10); [by vm_compute|exact Hn].
        - apply (round_trips_upto 2 100); [by vm_compute|exact Hn].
        - apply (round_trips_upto 3 1000); [by vm_compute|exact Hn].
        - apply (round_trips_upto 4 10000); [by vm_compute|exact Hn]. }
      unfold round_trips in Hrt.
      destruct (safe_float (PyStr (fixed digits n))) as [f|]; [|done].
      exists f. split; [done|]. by apply String.eqb_eq.
    + repeat split; by vm_compute.
Qed.

Section Lookups.

Variable E : Env.

Lemma best_loop_error bids :
  ∀ best e, best_loop bids best = Raise e → is_KeyError e = false.
Proof.
  induction bids as [|b bids IH]; intros best e H; [done|].
  simpl in H. destruct (py_get b "price") as [price|e'] eqn:Hget; simpl in H.
  - by apply IH in H.
  - injection H as <-. destruct b; simpl in Hget; try discriminate Hget;
      by injection Hget as <-.
Qed.

(** After the fetch [best_bid] raises no [KeyError]: the subscript
    [raw["bids"]] comes after the membership test. *)
Lemma best_of_error raw e : best_of raw = Raise e → is_KeyError e = false.
Proof.
  unfold best_of. destruct (truthy raw); [|done]. simpl.
  destruct raw as [| | | | s|l|d]; simpl; try (intros H; by injection H as <-).
  - destruct (is_substring "bids" s); simpl; intros H; [|done].
    by injection H as <-.
  - destruct (existsb (is_str "bids") l); simpl; intros H; [|done].
    by injection H as <-.
  - destruct (d !! "bids") as [bids|]; simpl; [|done].
    destruct (py_iter bids) as [items|e'] eqn:Hiter; simpl.
    + apply best_loop_error.
    + intros H. injection H as <-.
      destruct bids; simpl in Hiter; try discriminate Hiter;
        by injection Hiter as <-.
Qed.

Lemma scan_combo_error c t e t' :
  resolves c → scan_combo E c t = (Raise e, t') → is_KeyError e = false.
Proof.
  destruct c as [[[mktA legA] mktB] legB]. intros (tA & tB & HA & HB).
  simpl in HA, HB. unfold scan_combo, bind, lift. rewrite HA, HB.
  rewrite !best_bid_trace.
  destruct (best_of _) as [bidA|eA] eqn:HbA.
  - destruct (best_of (fetched (network E ((t ++ _) ++ _)))) as [bidB|eB] eqn:HbB.
    + destruct bidA as [a|], bidB as [b|]; try discriminate.
      unfold print at 1. destruct (float_ge _ _); [|discriminate].
      by rewrite telegram_send_events.
    + intros H. injection H as <- _. by apply best_of_error in HbB.
  - intros H. injection H as <- _. by apply best_of_error in HbA.
Qed.

Lemma scan_combos_error combos :
  Forall resolves combos →
  ∀ t e t', scan_combos E combos t = (Raise e, t') → is_KeyError e = false.
Proof.
  induction 1 as [|c combos Hc Hrest IH]; intros t e t'; [done|].
  rewrite scan_combos_cons.
  destruct (scan_combo E c t) as [[[]|e0] t0] eqn:Hscan.
  - apply IH.
  - intros H. injection H as <- _. by apply (scan_combo_error c t e0 t0).
Qed.

End Lookups.

(** C9.  Every (market, leg) pair of every combination in
    [MONITORED_COMBOS] resolves to an identifier in [TOKENS], so in no run
    does a failed lookup ([KeyError]) escape the scan. *)
Theorem monitored_combos_resolve :
  Forall resolves MONITORED_COMBOS
  ∧ ∀ E t e t',
      scan_exit_opportunities E t = (Raise e, t') → is_KeyError e = false.
Proof.
  assert (H : Forall resolves MONITORED_COMBOS).
  { unfold MONITORED_COMBOS, resolves.
    repeat constructor; simpl; eexists; eexists; split; vm_compute; reflexivity. }
  split; [exact H|].
  intros E t e t'. unfold scan_exit_opportunities, bind, print.
  by apply scan_combos_error.
Qed.

(** C10.  There is a snapshot whose bid list has an entry that is not an
    object (a bare string) for which [best_bid] raises [AttributeError] in
    whatever run fetches it, and a run of [main] in which that exception
    reaches the top level, is reported once and raised again. *)
Theorem best_bid_raises_on_malformed_entry :
  ∃ raw : PyVal,
    (∃ (d : gmap string PyVal) bids x,
       raw = PyDict d ∧ d !! "bids" = Some (PyList bids)
       ∧ x ∈ bids ∧ is_mapping x = false)
    ∧ (∀ E token_id t t',
         fetch_orderbook E token_id t = (Ok raw, t') →
         best_bid E token_id t =
         (Raise (AttributeError "'str' object has no attribute 'get'"), t'))
    ∧ (∃ t',
         fetch_orderbook malformed_env first_tokenA
           [Printed (nl +:+ "🔍 Polymarket EXIT monitor (using bids)" +:+ nl)]
         = (Ok raw, t')
         ∧ main malformed_env [] =
           (Raise (AttributeError "'str' object has no attribute 'get'"),
            t' ++ [telegram_request malformed_env
                     (crash_message
                        (AttributeError "'str' object has no attribute 'get'"))])).
Proof.
  exists (book malformed_bids). split; [|split].
  - exists (book_fields malformed_bids), malformed_bids, (PyStr "0.5").
    split; [done|]. split; [by vm_compute|]. split; [|done].
    unfold malformed_bids. apply list_elem_of_further, list_elem_of_here.
  - intros E token_id t t' Hfetch.
    rewrite (best_bid_after_fetch E _ _ _ _ Hfetch).
    vm_compute. reflexivity.
  - eexists. split; vm_compute; reflexivity.
Qed.

(* ===================================================================== *)
(** * The claims on concrete runs *)
(* ===================================================================== *)

(** C1 on a bid list with prices 0.52, abc and 0.5. *)
Lemma best_bid_maximum_witness :
  book_fields sample_bids !! "bids" = Some (PyList sample_bids)
  ∧ head (coercible_prices sample_bids) = Some (float_of_decimal false 52 (-2))
  ∧ ∃ m, best_bid sample_env "tok" [] = (Ok (Some m), [orderbook_request "tok"])
         ∧ is_maximum m (numbers (coercible_prices sample_bids))
         ∧ running_best sample_bids None = Some m.
Proof.
  split; [vm_compute; reflexivity|].
  split; [vm_compute; reflexivity|].
  apply (best_bid_maximum sample_env "tok" [] [orderbook_request "tok"]
           (book_fields sample_bids) sample_bids (float_of_decimal false 52 (-2))).
  - vm_compute; reflexivity.
  - vm_compute; reflexivity.
  - unfold sample_bids, entry. repeat constructor.
  - vm_compute; reflexivity.
  - vm_compute; reflexivity.
Defined.

(** C2 on a bid list without a coercible price. *)
Lemma best_bid_no_value_witness :
  coercible_prices priceless_bids = []
  ∧ best_bid priceless_env "tok" [] = (Ok None, [orderbook_request "tok"]).
Proof.
  split; [vm_compute; reflexivity|].
  apply (best_bid_no_value priceless_env "tok" [] [orderbook_request "tok"]
           (book priceless_bids)).
  - vm_compute; reflexivity.
  - right. right. exists (book_fields priceless_bids), priceless_bids.
    split; [reflexivity|]. split; [vm_compute; reflexivity|].
    split; [|vm_compute; reflexivity].
    unfold priceless_bids, entry. repeat constructor.
Defined.

(** C3 on the first combination with best bids 0.52 and 0.50. *)
Lemma scan_combo_alerts_witness :
  ∃ t3, scan_combo alert_env first_combo [] = (Ok tt, t3)
        ∧ notifier_calls t3 = 1%nat
        ∧ is_substring "1.0200"
            (alert_message first_combo (float_add (float_of_decimal false 52 (-2)) half))
          = true.
Proof.
  destruct (scan_combo_alerts_iff_threshold alert_env
              "CUT25" "YES" "CUTCUTPAUSE" "YES" first_tokenA first_tokenB
              (float_of_decimal false 52 (-2)) half
              [] [orderbook_request first_tokenA]
              [orderbook_request first_tokenA; orderbook_request first_tokenB])
    as (t3 & Hrun & _ & _ & Hcalls & _ & Hmsg & _).
  - vm_compute; reflexivity.
  - vm_compute; reflexivity.
  - vm_compute; reflexivity.
  - vm_compute; reflexivity.
  - exists t3. split; [exact Hrun|]. split; [exact Hcalls|].
    vm_compute; reflexivity.
Defined.


(** C7 on a run whose first snapshot has a bare string in its bid list. *)
Lemma main_reports_and_reraises_witness :
  ∃ t', scan_exit_opportunities malformed_env [] =
          (Raise (AttributeError "'str' object has no attribute 'get'"), t')
        ∧ main malformed_env [] =
          (Raise (AttributeError "'str' object has no attribute 'get'"),
           t' ++ telegram_events malformed_env
                   (crash_message
                      (AttributeError "'str' object has no attribute 'get'")) t').
Proof.
  eexists. split.
  - vm_compute; reflexivity.
  - apply (main_reports_and_reraises malformed_env []
             (Raise (AttributeError "'str' object has no attribute 'get'"))).
    vm_compute; reflexivity.
Defined.

(** ** The runs of the specification's examples *)

(** Best bids 0.52 and 0.50: the total is 1.02, one POST carries the alert
    message, which shows 1.0200 and 1.01. *)
Example alert_run :
  scan_combo alert_env first_combo [] =
  (Ok tt,
   [orderbook_request first_tokenA; orderbook_request first_tokenB;
    Printed "CUT25 YES + CUTCUTPAUSE YES → 0.5200 + 0.5000 = 1.0200";
    telegram_request alert_env
      (alert_message first_combo
         (float_add (float_of_decimal false 52 (-2)) half));
    Printed "🚨 Alert sent"])
  ∧ is_substring "Bid sum: <b>1.0200</b>"
      (alert_message first_combo
         (float_add (float_of_decimal false 52 (-2)) half)) = true
  ∧ is_substring "Threshold: 1.01"
      (alert_message first_combo
         (float_add (float_of_decimal false 52 (-2)) half)) = true.
Proof. repeat split; vm_compute; reflexivity. Qed.

(** Best bids 0.40 and 0.55: the total is below the threshold, the
    evaluation line is printed and nothing else happens. *)
Example quiet_run :
  scan_combo quiet_env first_combo [] =
  (Ok tt,
   [orderbook_request first_tokenA; orderbook_request first_tokenB;
    Printed "CUT25 YES + CUTCUTPAUSE YES → 0.4000 + 0.5500 = 0.9500"]).
Proof. vm_compute; reflexivity. Qed.

(** A fetch failure for the first leg and 0.60 for the second. *)
Example missing_run :
  scan_combo missing_env first_combo [] =
  (Ok tt,
   [orderbook_request first_tokenA; orderbook_request first_tokenB;
    Printed "CUT25 YES / CUTCUTPAUSE YES → missing bids"]).
Proof. vm_compute; reflexivity. Qed.

(** A combination with a market that [TOKENS] does not have: the scan
    raises [KeyError], the guard reports it once and raises it again. *)
Example unknown_market_run :
  guarded alert_env (scan_combos alert_env [("FOO", "YES", "CUT25", "YES")]) [] =
  (Raise (KeyError "FOO"),
   [telegram_request alert_env (crash_message (KeyError "FOO"))])
  ∧ is_substring "'FOO'" (crash_message (KeyError "FOO")) = true.
Proof. split; vm_compute; reflexivity. Qed.

(** Snapshots outside the expected shape: a JSON number raises at the
    membership test, a list that has the string bids raises at the
    subscript, and a bid list that is [null] raises at the loop. *)
Example odd_snapshots :
  best_of (PyInt 5) = Raise (TypeError "argument of type 'int' is not iterable")
  ∧ best_of (PyList [PyStr "bids"]) =
    Raise (TypeError "list indices must be integers or slices, not str")
  ∧ best_of (PyDict {[ "bids" := PyNone ]}) =
    Raise (TypeError "'NoneType' object is not iterable")
  ∧ best_of (PyDict ∅) = Ok None
  ∧ best_of (PyList [PyStr "asks"]) = Ok None.
Proof. repeat split; vm_compute; reflexivity. Qed.

(** The threshold is the binary64 number nearest to 1.01. *)
Example threshold_value :
  THRESHOLD = S754_finite false 4548635623644201 (-52)
  ∧ float (PyStr "1.01") = Ok THRESHOLD.
Proof. split; vm_compute; reflexivity. Qed.

(** The Order Book Client on each kind of outcome: connection failure,
    timeout, a 404 with a JSON body, a 200 whose body does not parse, and a
    200 with a JSON body. *)
Example fetch_outcomes :
  fetch_orderbook (offline [Raise (ConnectionError "connection refused")]) "tok" []
    = (Ok PyNone, [orderbook_request "tok"])
  ∧ fetch_orderbook (offline [Raise (Timeout "Read timed out.")]) "tok" []
    = (Ok PyNone, [orderbook_request "tok"])
  ∧ fetch_orderbook
      (offline [Ok {| status_code := 404; json := Ok (book sample_bids) |}]) "tok" []
    = (Ok PyNone, [orderbook_request "tok"])
  ∧ fetch_orderbook
      (offline [Ok {| status_code := 200;
                      json := Raise (JSONDecodeError "Expecting value") |}]) "tok" []
    = (Ok PyNone, [orderbook_request "tok"])
  ∧ fetch_orderbook (offline [http_ok (book sample_bids)]) "tok" []
    = (Ok (book sample_bids), [orderbook_request "tok"]).
Proof. repeat split; vm_compute; reflexivity. Qed.

(** The Notifier without credentials, with an empty chat id, with a POST
    that times out and with a POST that goes through. *)
Example notifier_outcomes :
  telegram_send (offline []) "hello" [] = (Ok tt, [Printed warning_line])
  ∧ telegram_send
      {| TELEGRAM_BOT_TOKEN := Some "123:abc"; TELEGRAM_CHAT_ID := Some "";
         network := scripted [] |} "hello" []
    = (Ok tt, [Printed warning_line])
  ∧ telegram_send (online [Raise (Timeout "Read timed out.")]) "hello" []
    = (Ok tt,
       [HttpPost "https://api.telegram.org/bot123:abc/sendMessage"
          (Some "42") "hello" "HTML" 6;
        Printed "Telegram error: Read timed out."])
  ∧ telegram_send (online [Ok {| status_code := 200; json := Ok PyNone |}]) "hello" []
    = (Ok tt,
       [HttpPost "https://api.telegram.org/bot123:abc/sendMessage"
          (Some "42") "hello" "HTML" 6]).
Proof. repeat split; vm_compute; reflexivity. Qed.

(* ===================================================================== *)
(** * Further properties of the Best-Bid Extractor *)
(* ===================================================================== *)

Section FloatEquality.


Lemma SFeqb_SFleb x y : SFeqb x y = true → SFleb x y = true.
Proof.
  unfold SFeqb, SFleb. destruct (SFcompare x y) as [[]|]; congruence.
Qed.

Lemma SFeqb_sym x y : SFeqb x y = true → SFeqb y x = true.
Proof.
  unfold SFeqb, SFcompare.
  destruct x as [[]|[]| |[] ? ?], y as [[]|[]| |[] ? ?]; simpl;
    try discriminate; try reflexivity;
    repeat match goal with
      | |- context [Pos.compare_cont Eq ?a ?b] =>
          change (Pos.compare_cont Eq a b) with (Pos.compare a b)
      | |- context [Z.compare ?a ?b] => destruct (Z.compare_spec a b)
      | |- context [Pos.compare ?a ?b] => destruct (Pos.compare_spec a b)
      end;
    simpl; intros; subst; try discriminate; try reflexivity; exfalso; lia.
Qed.


End FloatEquality.

Section BestBidShape.

Lemma running_best_some bids :
  ∀ x, ∃ m, running_best bids (Some x) = Some m
            ∧ (m = x ∨ m ∈ coercible_prices bids).
Proof.
  induction bids as [|b bids IH]; intros x; [exists x; by split; [|left]|].
  rewrite coercible_prices_cons. unfold running_best. simpl.
  destruct (entry_price b) as [p|]; simpl.
  - destruct (float_gt p x).
    + destruct (IH p) as (m & Hm & [Heq|Hin]); exists m; (split; [exact Hm|]);
        right; [subst m; apply list_elem_of_here|by apply list_elem_of_further].
    + destruct (IH x) as (m & Hm & [Heq|Hin]); exists m; (split; [exact Hm|]);
        [by left|right; by apply list_elem_of_further].
  - apply IH.
Qed.

Lemma running_best_member bids m :
  running_best bids None = Some m → m ∈ coercible_prices bids.
Proof.
  induction bids as [|b bids IH]; [done|].
  rewrite coercible_prices_cons. unfold running_best. simpl.
  destruct (entry_price b) as [p|]; simpl; [|exact IH].
  intros H. destruct (running_best_some bids p) as (m' & Hm' & Hin).
  unfold running_best in Hm'. rewrite Hm' in H. injection H as <-.
  destruct Hin as [Heq|Hin];
    [subst m'; apply list_elem_of_here|by apply list_elem_of_further].
Qed.

Lemma running_best_none bids :
  running_best bids None = None ↔ coercible_prices bids = [].
Proof.
  split; [|apply running_best_no_price].
  induction bids as [|b bids IH]; [done|].
  rewrite coercible_prices_cons. unfold running_best. simpl.
  destruct (entry_price b) as [p|]; simpl; [|exact IH].
  intros H. destruct (running_best_some bids p) as (m' & Hm' & _).
  unfold running_best in Hm'. rewrite Hm' in H. discriminate H.
Qed.

(** A result of the Best-Bid Extractor is the coerced price of one of the
    entries, and the "no value" marker comes back only when no entry has a
    coercible price: for a snapshot that is an object with a list of
    objects under ["bids"]. *)
Theorem best_bid_result_is_a_price (d : gmap string PyVal) bids :
  d !! "bids" = Some (PyList bids) →
  Forall (λ b, is_mapping b = true) bids →
  ∃ r, best_of (PyDict d) = Ok r
       ∧ (r = None ↔ coercible_prices bids = [])
       ∧ (∀ m, r = Some m → m ∈ coercible_prices bids).
Proof.
  intros Hd Hmap. exists (running_best bids None).
  rewrite (best_of_bid_list d bids Hd), (best_loop_running bids None Hmap).
  split; [done|]. split; [apply running_best_none|].
  intros m. apply running_best_member.
Qed.


(** One entry that is not an object makes the whole snapshot unusable: the
    Best-Bid Extractor raises [AttributeError] at the first such entry,
    whatever prices the entries before and after it have. *)
Theorem best_bid_raises_at_first_non_mapping
    (d : gmap string PyVal) pre x post :
  d !! "bids" = Some (PyList (pre ++ x :: post)) →
  Forall (λ b, is_mapping b = true) pre →
  is_mapping x = false →
  best_of (PyDict d) =
  Raise (AttributeError ("'" +:+ type_name x +:+ "' object has no attribute 'get'")).
Proof.
  intros Hd Hpre Hx. rewrite (best_of_bid_list d _ Hd).
  by apply best_loop_raises.
Qed.

(** A snapshot that is not an object never gives a price: the result is
    the "no value" marker when the value is falsy or does not contain
    ["bids"], and a [TypeError] otherwise. *)
Theorem best_of_non_object raw :
  is_mapping raw = false →
  (∀ p, best_of raw ≠ Ok (Some p))
  ∧ (best_of raw = Ok None ↔ truthy raw = false ∨ py_in "bids" raw = Ok false)
  ∧ (∀ e, best_of raw = Raise e → ∃ msg, e = TypeError msg).
Proof.
  intros Hraw. unfold best_of.
  assert (Hcase : ∀ (shown : bool) (tested : result bool)
                    (r : result (option spec_float)),
            (shown = false ∧ r = Ok None)
            ∨ (shown = true ∧ tested = Ok false ∧ r = Ok None)
            ∨ (shown = true ∧ (∃ msg, r = Raise (TypeError msg))
               ∧ tested ≠ Ok false) →
            (∀ p, r ≠ Ok (Some p))
            ∧ (r = Ok None ↔ shown = false ∨ tested = Ok false)
            ∧ (∀ e, r = Raise e → ∃ msg, e = TypeError msg)).
  { intros shown tested r [[-> ->]|[(-> & -> & ->)|(-> & [msg ->] & Hne)]].
    - split; [done|]. split; [by split; [left|]|done].
    - split; [done|]. split; [by split; [right|]|done].
    - split; [done|]. split; [|intros e0 H; injection H as <-; eauto].
      split; [done|]. by intros [|]. }
  apply (Hcase (truthy raw) (py_in "bids" raw)).
  destruct raw as [|[]|n|f|s|l|d]; try discriminate Hraw; simpl.
  - by left.
  - right. right. split; [done|]. split; [eauto|done].
  - by left.
  - destruct (n =? 0); simpl; [by left|].
    right. right. split; [done|]. split; [eauto|done].
  - destruct f; simpl; try (by left);
      right; right; (split; [done|]); (split; [eauto|done]).
  - destruct (String.eqb s ""); simpl; [by left|].
    destruct (is_substring "bids" s); simpl.
    + right. right. split; [done|]. split; [eauto|done].
    + right. left. done.
  - destruct l as [|v l]; simpl; [by left|].
    destruct (is_str "bids" v || existsb (is_str "bids") l); simpl.
    + right. right. split; [done|]. split; [eauto|done].
    + right. left. done.
Qed.

(** An object whose ["bids"] is not an array: [null], a boolean or a number
    raises [TypeError] at the loop; a string or an object raises
    [AttributeError] at its first character or key, and gives the "no
    value" marker when it is empty. *)
Theorem best_of_bids_not_a_list (d : gmap string PyVal) v :
  d !! "bids" = Some v →
  is_list v = false →
  best_of (PyDict d) =
  match v with
  | PyStr s =>
      if String.eqb s "" then Ok None
      else Raise (AttributeError "'str' object has no attribute 'get'")
  | PyDict m =>
      if decide (m = ∅) then Ok None
      else Raise (AttributeError "'str' object has no attribute 'get'")
  | _ => Raise (TypeError ("'" +:+ type_name v +:+ "' object is not iterable"))
  end.
Proof.
  intros Hd Hv. unfold best_of.
  rewrite (truthy_dict_with_key _ _ _ Hd). simpl. rewrite Hd. simpl.
  destruct v as [| | | |s|l|m]; try discriminate Hv; try reflexivity; simpl.
  - by destruct s.
  - destruct (decide (m = ∅)) as [->|Hne].
    + by rewrite map_to_list_empty.
    + destruct (map_to_list m) as [|kv l] eqn:Hl; [|done].
      by apply map_to_list_empty_iff in Hl.
Qed.

End BestBidShape.

(* ===================================================================== *)
(** * Further properties of the Opportunity Scanner *)
(* ===================================================================== *)

Section ScannerRuns.

Variable E : Env.

Lemma token_of_error mkt leg e :
  token_of mkt leg = Raise e → e = KeyError mkt ∨ e = KeyError leg.
Proof.
  unfold token_of, subscript. destruct (TOKENS !! mkt) as [legs|]; simpl.
  - destruct (legs !! leg); [done|]. intros H. injection H as <-. by right.
  - intros H. injection H as <-. by left.
Qed.

(** Every path through the body of the loop. *)
Lemma scan_combo_paths mktA legA mktB legB t :
  scan_combo E (mktA, legA, mktB, legB) t =
  match token_of mktA legA, token_of mktB legB with
  | Raise e, _ => (Raise e, t)
  | Ok _, Raise e => (Raise e, t)
  | Ok tA, Ok tB =>
      let t1 := t ++ [orderbook_request tA] in
      let t2 := t1 ++ [orderbook_request tB] in
      match best_of (fetched (network E t1)) with
      | Raise e => (Raise e, t1)
      | Ok bidA =>
          match best_of (fetched (network E t2)) with
          | Raise e => (Raise e, t2)
          | Ok bidB =>
              match bidA, bidB with
              | Some a, Some b =>
                  let c := (mktA, legA, mktB, legB) in
                  let total := float_add a b in
                  let t3 := t2 ++ [Printed (evaluation_line c a b total)] in
                  (Ok tt,
                   if float_ge total THRESHOLD
                   then t3 ++ telegram_events E (alert_message c total) t3
                           ++ [Printed "🚨 Alert sent"]
                   else t3)
              | _, _ =>
                  (Ok tt, t2 ++ [Printed (missing_line (mktA, legA, mktB, legB))])
              end
          end
      end
  end.
Proof.
  unfold scan_combo, bind, lift.
  destruct (token_of mktA legA) as [tA|eA]; [|done].
  destruct (token_of mktB legB) as [tB|eB]; [|done].
  rewrite !best_bid_trace. cbv zeta.
  destruct (best_of (fetched (network E (t ++ [orderbook_request tA]))))
    as [bidA|eA]; [|done].
  destruct (best_of (fetched (network E
             ((t ++ [orderbook_request tA]) ++ [orderbook_request tB]))))
    as [bidB|eB]; [|done].
  destruct bidA as [a|], bidB as [b|]; try reflexivity.
  unfold print at 1.
  destruct (float_ge (float_add a b) THRESHOLD); [|done].
  rewrite telegram_send_events. unfold print. by rewrite <- app_assoc.
Qed.

Lemma get_tokens_app h1 h2 : get_tokens (h1 ++ h2) = get_tokens h1 ++ get_tokens h2.
Proof. apply omap_app. Qed.

Lemma get_tokens_telegram msg t : get_tokens (telegram_events E msg t) = [].
Proof.
  unfold telegram_events.
  destruct (unset (TELEGRAM_BOT_TOKEN E) || unset (TELEGRAM_CHAT_ID E)); [done|].
  by destruct (network E (t ++ [telegram_request E msg])).
Qed.

(** Both identifiers are looked up before anything is fetched: when a
    market or leg of a combination is not in [TOKENS], the body of the loop
    raises the [KeyError] of the missing key and makes no request and
    prints nothing. *)
Theorem scan_combo_unknown_key mktA legA mktB legB t e :
  token_of mktA legA = Raise e
  ∨ ((∃ tA, token_of mktA legA = Ok tA) ∧ token_of mktB legB = Raise e) →
  scan_combo E (mktA, legA, mktB, legB) t = (Raise e, t)
  ∧ (e = KeyError mktA ∨ e = KeyError legA
     ∨ e = KeyError mktB ∨ e = KeyError legB).
Proof.
  intros H. rewrite scan_combo_paths.
  destruct H as [HA|[[tA HA] HB]].
  - rewrite HA. split; [done|].
    destruct (token_of_error _ _ _ HA); auto.
  - rewrite HA, HB. split; [done|].
    destruct (token_of_error _ _ _ HB); auto.
Qed.

(** An exception in one combination ends the scan: the combinations after
    it are not evaluated, and the trace is the one that combination
    left. *)
Theorem scan_combos_stops_at_exception pre c rest t0 t e t' :
  scan_combos E pre t0 = (Ok tt, t) →
  scan_combo E c t = (Raise e, t') →
  scan_combos E (pre ++ c :: rest) t0 = (Raise e, t').
Proof.
  intros Hpre Hc. rewrite scan_combos_app. unfold bind. rewrite Hpre.
  rewrite scan_combos_cons. by rewrite Hc.
Qed.

Lemma scan_combo_requests c t t' :
  resolves c →
  scan_combo E c t = (Ok tt, t') →
  get_tokens t' = get_tokens t ++ combo_tokens c.
Proof.
  destruct c as [[[mktA legA] mktB] legB]. intros (tA & tB & HA & HB).
  simpl in HA, HB. rewrite scan_combo_paths. unfold combo_tokens. simpl.
  rewrite HA, HB. cbv zeta.
  destruct (best_of _) as [bidA|]; [|done].
  destruct (best_of _) as [bidB|]; [|done].
  destruct bidA as [a|], bidB as [b|]; intros H; injection H as <-;
    try destruct (float_ge _ _);
    rewrite !get_tokens_app, ?get_tokens_telegram; simpl;
    by rewrite ?app_nil_r, <- ?app_assoc.
Qed.

(** A scan that returns has requested, in list order, the two order books
    of every combination, and no other: two GET requests per combination,
    whatever the bids were. *)
Theorem scan_combos_requests combos :
  Forall resolves combos →
  ∀ t t', scan_combos E combos t = (Ok tt, t') →
          get_tokens t' = get_tokens t ++ flat_map combo_tokens combos.
Proof.
  induction 1 as [|c combos Hc _ IH]; intros t t' Hrun.
  - injection Hrun as <-. simpl. by rewrite app_nil_r.
  - rewrite scan_combos_cons in Hrun.
    destruct (scan_combo E c t) as [[[]|e] t1] eqn:Hscan; [|done].
    rewrite (IH _ _ Hrun), (scan_combo_requests c t t1 Hc Hscan).
    simpl. by rewrite <- app_assoc.
Qed.

Lemma scan_combo_calls c t r t' :
  scan_combo E c t = (r, t') →
  (notifier_calls t' ≤ notifier_calls t + 1)%nat.
Proof.
  destruct c as [[[mktA legA] mktB] legB]. rewrite scan_combo_paths.
  assert (Hget : ∀ tok, notifier_calls [orderbook_request tok] = 0%nat) by done.
  assert (Hmiss : notifier_calls [Printed (missing_line (mktA, legA, mktB, legB))] = 0%nat)
    by apply notifier_calls_printed, missing_line_not_warning.
  assert (Hline : ∀ a b, notifier_calls
            [Printed (evaluation_line (mktA, legA, mktB, legB) a b (float_add a b))]
          = 0%nat)
    by (intros; apply notifier_calls_printed, evaluation_line_not_warning).
  assert (Hsent : notifier_calls [Printed "🚨 Alert sent"] = 0%nat) by done.
  destruct (token_of mktA legA) as [tA|];
    [|intros H; apply (f_equal snd) in H; cbn [snd] in H; rewrite <- H; lia].
  destruct (token_of mktB legB) as [tB|];
    [|intros H; apply (f_equal snd) in H; cbn [snd] in H; rewrite <- H; lia].
  cbv zeta.
  destruct (best_of _) as [bidA|];
    [|intros H; apply (f_equal snd) in H; cbn [snd] in H; rewrite <- H;
      rewrite notifier_calls_app, Hget; lia].
  destruct (best_of _) as [bidB|];
    [|intros H; apply (f_equal snd) in H; cbn [snd] in H; rewrite <- H;
      rewrite !notifier_calls_app, !Hget; lia].
  destruct bidA as [a|], bidB as [b|]; intros H;
    apply (f_equal snd) in H; cbn [snd] in H; rewrite <- H;
    try (rewrite !notifier_calls_app, !Hget, Hmiss; lia).
  destruct (float_ge _ _).
  - rewrite !notifier_calls_app, !Hget, Hline, telegram_events_one_call, Hsent. lia.
  - rewrite !notifier_calls_app, !Hget, Hline. lia.
Qed.

(** In every run, whether it returns or raises, the scan calls the
    Notifier at most once per combination. *)
Theorem scan_combos_notifies_at_most_once_each combos :
  ∀ t r t', scan_combos E combos t = (r, t') →
            (notifier_calls t' ≤ notifier_calls t + length combos)%nat.
Proof.
  induction combos as [|c combos IH]; intros t r t' Hrun.
  - injection Hrun as _ <-. simpl. lia.
  - rewrite scan_combos_cons in Hrun.
    destruct (scan_combo E c t) as [[[]|e] t1] eqn:Hscan.
    + apply scan_combo_calls in Hscan. apply IH in Hrun. simpl. lia.
    + apply (f_equal snd) in Hrun. cbn [snd] in Hrun. rewrite <- Hrun.
      apply scan_combo_calls in Hscan. simpl. lia.
Qed.

(** A NaN best bid never alerts: the total is a NaN, which compares below
    and above nothing, so the body prints the evaluation line (with nan
    for the total) and nothing else. *)
Theorem scan_combo_nan_bid_no_alert
    mktA legA mktB legB tA tB a b t t1 t2 :
  token_of mktA legA = Ok tA →
  token_of mktB legB = Ok tB →
  best_bid E tA t = (Ok (Some a), t1) →
  best_bid E tB t1 = (Ok (Some b), t2) →
  is_nan a = true ∨ is_nan b = true →
  let c := (mktA, legA, mktB, legB) in
  scan_combo E c t = (Ok tt, t2 ++ [Printed (evaluation_line c a b S754_nan)])
  ∧ is_substring " = nan" (evaluation_line c a b S754_nan) = true.
Proof.
  intros HA HB HbA HbB Hnan c. unfold c.
  rewrite (scan_combo_bids E _ _ _ _ _ _ _ _ _ _ _ HA HB HbA HbB).
  assert (Htotal : float_add a b = S754_nan).
  { destruct Hnan as [Hn|Hn].
    - destruct a; try discriminate Hn. reflexivity.
    - destruct b; try discriminate Hn. by destruct a. }
  rewrite Htotal. split; [reflexivity|].
  unfold evaluation_line.
  change (format_f 4 S754_nan) with "nan".
  do 5 apply is_substring_skip. reflexivity.
Qed.


(** The line that says an alert was sent is printed whenever the total
    reaches the threshold, delivered or not: without credentials it follows
    the warning and no request is made, and after a POST that raised it
    follows the printed error. *)
Theorem scan_combo_alert_line_without_delivery
    mktA legA mktB legB tA tB a b t t1 t2 :
  token_of mktA legA = Ok tA →
  token_of mktB legB = Ok tB →
  best_bid E tA t = (Ok (Some a), t1) →
  best_bid E tB t1 = (Ok (Some b), t2) →
  float_ge (float_add a b) THRESHOLD = true →
  let c := (mktA, legA, mktB, legB) in
  let total := float_add a b in
  let t3 := t2 ++ [Printed (evaluation_line c a b total)] in
  let post := telegram_request E (alert_message c total) in
  (unset (TELEGRAM_BOT_TOKEN E) || unset (TELEGRAM_CHAT_ID E) = true →
   scan_combo E c t =
   (Ok tt, t3 ++ [Printed warning_line; Printed "🚨 Alert sent"]))
  ∧ (∀ e, unset (TELEGRAM_BOT_TOKEN E) || unset (TELEGRAM_CHAT_ID E) = false →
          network E (t3 ++ [post]) = Raise e →
          scan_combo E c t =
          (Ok tt, t3 ++ [post; Printed ("Telegram error: " +:+ exn_text e);
                         Printed "🚨 Alert sent"])).
Proof.
  intros HA HB HbA HbB Hge c total t3 post.
  assert (Hscan : scan_combo E c t =
                  (Ok tt, t3 ++ telegram_events E (alert_message c total) t3
                             ++ [Printed "🚨 Alert sent"])).
  { unfold c at 1.
    rewrite (scan_combo_bids E _ _ _ _ _ _ _ _ _ _ _ HA HB HbA HbB).
    rewrite Hge. unfold bind, print at 1. rewrite telegram_send_events.
    unfold print. by rewrite <- app_assoc. }
  rewrite Hscan. unfold telegram_events. split.
  - intros ->. reflexivity.
  - intros e -> Hnet. fold post. rewrite Hnet. reflexivity.
Qed.

(** The threshold is inclusive: a total equal to it alerts. *)
Theorem scan_combo_alerts_at_threshold
    mktA legA mktB legB tA tB a b t t1 t2 :
  token_of mktA legA = Ok tA →
  token_of mktB legB = Ok tB →
  best_bid E tA t = (Ok (Some a), t1) →
  best_bid E tB t1 = (Ok (Some b), t2) →
  SFeqb (float_add a b) THRESHOLD = true →
  let c := (mktA, legA, mktB, legB) in
  let t3 := t2 ++ [Printed (evaluation_line c a b (float_add a b))] in
  scan_combo E c t =
  (Ok tt, t3 ++ telegram_events E (alert_message c (float_add a b)) t3
             ++ [Printed "🚨 Alert sent"]).
Proof.
  intros HA HB HbA HbB Heq c t3. unfold c at 1.
  rewrite (scan_combo_bids E _ _ _ _ _ _ _ _ _ _ _ HA HB HbA HbB).
  assert (Hge : float_ge (float_add a b) THRESHOLD = true)
    by (unfold float_ge; by apply SFeqb_SFleb, SFeqb_sym).
  rewrite Hge. unfold bind, print at 1. rewrite telegram_send_events.
  unfold print. by rewrite <- app_assoc.
Qed.

End ScannerRuns.

(* ===================================================================== *)
(** * The further properties on concrete runs *)
(* ===================================================================== *)

Lemma best_bid_result_is_a_price_witness :
  ∃ r, best_of (book sample_bids) = Ok r
       ∧ (r = None ↔ coercible_prices sample_bids = [])
       ∧ (∀ m, r = Some m → m ∈ coercible_prices sample_bids).
Proof.
  apply (best_bid_result_is_a_price (book_fields sample_bids) sample_bids).
  - vm_compute; reflexivity.
  - unfold sample_bids, entry. repeat constructor.
Defined.



Lemma best_bid_raises_at_first_non_mapping_witness :
  best_of (book malformed_bids) =
  Raise (AttributeError "'str' object has no attribute 'get'").
Proof.
  apply (best_bid_raises_at_first_non_mapping (book_fields malformed_bids)
           [entry (PyStr "0.52")] (PyStr "0.5") []).
  - vm_compute; reflexivity.
  - unfold entry. repeat constructor.
  - reflexivity.
Defined.

Lemma best_of_non_object_witness :
  (∀ p, best_of (PyInt 5) ≠ Ok (Some p))
  ∧ (best_of (PyInt 5) = Ok None ↔
     truthy (PyInt 5) = false ∨ py_in "bids" (PyInt 5) = Ok false)
  ∧ (∀ e, best_of (PyInt 5) = Raise e → ∃ msg, e = TypeError msg).
Proof. apply (best_of_non_object (PyInt 5)). reflexivity. Defined.

Lemma best_of_bids_not_a_list_witness :
  best_of (PyDict null_bids_fields) =
  Raise (TypeError "'NoneType' object is not iterable").
Proof.
  apply (best_of_bids_not_a_list null_bids_fields PyNone).
  - vm_compute; reflexivity.
  - reflexivity.
Defined.

Lemma scan_combo_unknown_key_witness :
  scan_combo down_env ("FOO", "YES", "CUT25", "YES") [] = (Raise (KeyError "FOO"), [])
  ∧ (KeyError "FOO" = KeyError "FOO" ∨ KeyError "FOO" = KeyError "YES"
     ∨ KeyError "FOO" = KeyError "CUT25" ∨ KeyError "FOO" = KeyError "YES").
Proof.
  apply (scan_combo_unknown_key down_env "FOO" "YES" "CUT25" "YES" []
           (KeyError "FOO")).
  left. vm_compute; reflexivity.
Defined.

Lemma scan_combos_stops_at_exception_witness :
  scan_combos abort_env [first_combo; second_combo; first_combo] [] =
  (Raise (AttributeError "'str' object has no attribute 'get'"),
   [orderbook_request first_tokenA; orderbook_request first_tokenB;
    Printed "CUT25 YES + CUTCUTPAUSE YES → 0.4000 + 0.5500 = 0.9500";
    orderbook_request second_tokenA]).
Proof.
  apply (scan_combos_stops_at_exception abort_env
           [first_combo] second_combo [first_combo] []
           [orderbook_request first_tokenA; orderbook_request first_tokenB;
            Printed "CUT25 YES + CUTCUTPAUSE YES → 0.4000 + 0.5500 = 0.9500"]).
  - vm_compute; reflexivity.
  - vm_compute; reflexivity.
Defined.

Lemma scan_combos_requests_witness :
  ∃ t', scan_combos quiet_env MONITORED_COMBOS [] = (Ok tt, t')
        ∧ get_tokens t' =
          [first_tokenA; first_tokenB; second_tokenA; second_tokenB].
Proof.
  assert (Hres : Forall resolves MONITORED_COMBOS).
  { unfold MONITORED_COMBOS, resolves.
    repeat constructor; simpl; eexists; eexists; split; vm_compute; reflexivity. }
  eexists. split; [vm_compute; reflexivity|].
  etransitivity.
  - apply (scan_combos_requests quiet_env MONITORED_COMBOS Hres []).
    vm_compute; reflexivity.
  - vm_compute; reflexivity.
Defined.

Lemma scan_combos_notifies_at_most_once_each_witness :
  ∃ t', scan_combos alert_env MONITORED_COMBOS [] = (Ok tt, t')
        ∧ (notifier_calls t' ≤ notifier_calls [] + length MONITORED_COMBOS)%nat.
Proof.
  eexists. split; [vm_compute; reflexivity|].
  apply (scan_combos_notifies_at_most_once_each alert_env MONITORED_COMBOS []
           (Ok tt)).
  vm_compute; reflexivity.
Defined.

Lemma scan_combo_nan_bid_no_alert_witness :
  scan_combo nan_bid_env first_combo [] =
  (Ok tt,
   [orderbook_request first_tokenA; orderbook_request first_tokenB;
    Printed (evaluation_line first_combo S754_nan
               (float_of_decimal false 60 (-2)) S754_nan)])
  ∧ is_substring " = nan"
      (evaluation_line first_combo S754_nan
         (float_of_decimal false 60 (-2)) S754_nan) = true.
Proof.
  apply (scan_combo_nan_bid_no_alert nan_bid_env
           "CUT25" "YES" "CUTCUTPAUSE" "YES" first_tokenA first_tokenB
           S754_nan (float_of_decimal false 60 (-2))
           [] [orderbook_request first_tokenA]
           [orderbook_request first_tokenA; orderbook_request first_tokenB]).
  - vm_compute; reflexivity.
  - vm_compute; reflexivity.
  - vm_compute; reflexivity.
  - vm_compute; reflexivity.
  - left. reflexivity.
Defined.


Lemma scan_combo_alert_line_without_delivery_witness :
  scan_combo boundary_env first_combo [] =
  (Ok tt,
   [orderbook_request first_tokenA; orderbook_request first_tokenB;
    Printed "CUT25 YES + CUTCUTPAUSE YES → 0.5100 + 0.5000 = 1.0100";
    Printed warning_line; Printed "🚨 Alert sent"]).
Proof.
  destruct (scan_combo_alert_line_without_delivery boundary_env
              "CUT25" "YES" "CUTCUTPAUSE" "YES" first_tokenA first_tokenB
              (float_of_decimal false 51 (-2)) half
              [] [orderbook_request first_tokenA]
              [orderbook_request first_tokenA; orderbook_request first_tokenB])
    as [Hunset _].
  - vm_compute; reflexivity.
  - vm_compute; reflexivity.
  - vm_compute; reflexivity.
  - vm_compute; reflexivity.
  - vm_compute; reflexivity.
  - etransitivity; [apply Hunset; reflexivity|vm_compute; reflexivity].
Defined.

Lemma scan_combo_alerts_at_threshold_witness :
  SFeqb (float_add (float_of_decimal false 51 (-2)) half) THRESHOLD = true
  ∧ scan_combo boundary_env first_combo [] =
    (Ok tt,
     [orderbook_request first_tokenA; orderbook_request first_tokenB;
      Printed "CUT25 YES + CUTCUTPAUSE YES → 0.5100 + 0.5000 = 1.0100";
      Printed warning_line; Printed "🚨 Alert sent"]).
Proof.
  split; [vm_compute; reflexivity|].
  etransitivity.
  - apply (scan_combo_alerts_at_threshold boundary_env
             "CUT25" "YES" "CUTCUTPAUSE" "YES" first_tokenA first_tokenB
             (float_of_decimal false 51 (-2)) half
             [] [orderbook_request first_tokenA]
             [orderbook_request first_tokenA; orderbook_request first_tokenB]);
      vm_compute; reflexivity.
  - vm_compute; reflexivity.
Defined.

(* ===================================================================== *)
(** * What can and what cannot end the scan *)
(* ===================================================================== *)

Section ScanOutcome.

Variable E : Env.

Lemma best_loop_exn bids :
  ∀ best e, best_loop bids best = Raise e → ∃ msg, e = AttributeError msg.
Proof.
  induction bids as [|b bids IH]; intros best e H; [done|].
  simpl in H. destruct (py_get b "price") as [price|e'] eqn:Hget; simpl in H.
  - by apply IH in H.
  - injection H as <-. destruct b; simpl in Hget; try discriminate Hget;
      injection Hget as <-; eauto.
Qed.

Lemma best_of_exn raw e :
  best_of raw = Raise e →
  (∃ msg, e = TypeError msg) ∨ (∃ msg, e = AttributeError msg).
Proof.
  unfold best_of. destruct (truthy raw); [|done]. simpl.
  destruct raw as [| | | | s|l|d]; simpl;
    try (intros H; injection H as <-; left; eauto).
  - destruct (is_substring "bids" s); simpl; intros H; [|done].
    injection H as <-. left; eauto.
  - destruct (existsb (is_str "bids") l); simpl; intros H; [|done].
    injection H as <-. left; eauto.
  - destruct (d !! "bids") as [bids|]; simpl; [|done].
    destruct (py_iter bids) as [items|e'] eqn:Hiter; simpl.
    + intros H. right. by apply best_loop_exn in H.
    + intros H. injection H as <-. left.
      destruct bids; simpl in Hiter; try discriminate Hiter;
        injection Hiter as <-; eauto.
Qed.

Lemma best_of_well_shaped raw :
  well_shaped raw → ∃ r, best_of raw = Ok r.
Proof.
  intros [->|(d & -> & [Hd|(bids & Hd & Hmap)])].
  - by exists None.
  - exists None. unfold best_of. destruct (truthy (PyDict d)); [|done].
    simpl. by rewrite Hd.
  - exists (running_best bids None).
    by rewrite (best_of_bid_list d bids Hd), (best_loop_running bids None Hmap).
Qed.

(** No failure of the network ends the scan: the only exceptions that can
    escape it are the [KeyError] of a combination that does not resolve and
    the [TypeError] or [AttributeError] of a snapshot that is not of the
    expected shape. *)
Theorem scan_combos_exceptions combos :
  ∀ t e t',
    scan_combos E combos t = (Raise e, t') →
    (∃ c, c ∈ combos ∧ ¬ resolves c ∧ ∃ key, e = KeyError key)
    ∨ (∃ msg, e = TypeError msg)
    ∨ (∃ msg, e = AttributeError msg).
Proof.
  induction combos as [|c combos IH]; intros t e t' Hrun; [done|].
  rewrite scan_combos_cons in Hrun.
  destruct (scan_combo E c t) as [[[]|e0] t0] eqn:Hscan.
  - destruct (IH _ _ _ Hrun) as [(c' & Hin & Hc')|H]; [left|by right].
    exists c'. split; [by apply list_elem_of_further|done].
  - injection Hrun as <- _. clear IH.
    destruct c as [[[mktA legA] mktB] legB]. rewrite scan_combo_paths in Hscan.
    destruct (token_of mktA legA) as [tA|eA] eqn:HA.
    + destruct (token_of mktB legB) as [tB|eB] eqn:HB.
      * right. cbv zeta in Hscan.
        destruct (best_of _) as [bidA|eA] eqn:HbA.
        -- destruct (best_of (fetched (network E ((t ++ _) ++ _))))
             as [bidB|eB] eqn:HbB.
           ++ by destruct bidA, bidB.
           ++ apply (f_equal fst) in Hscan. cbn [fst] in Hscan.
              injection Hscan as ->. by apply best_of_exn in HbB.
        -- apply (f_equal fst) in Hscan. cbn [fst] in Hscan.
           injection Hscan as ->. by apply best_of_exn in HbA.
      * left. exists (mktA, legA, mktB, legB).
        split; [apply list_elem_of_here|].
        injection Hscan as -> _. split.
        -- intros (? & tB & _ & HB'). simpl in HB'. congruence.
        -- destruct (token_of_error _ _ _ HB) as [->| ->]; eauto.
    + left. exists (mktA, legA, mktB, legB).
      split; [apply list_elem_of_here|].
      injection Hscan as -> _. split.
      * intros (tA & ? & HA' & _). simpl in HA'. congruence.
      * destruct (token_of_error _ _ _ HA) as [->| ->]; eauto.
Qed.

(** When every combination resolves and every fetch gives a value of the
    documented shape, the scan returns normally, whatever the prices and
    whatever the Notifier meets. *)
Theorem scan_combos_returns_on_well_shaped_run combos :
  Forall resolves combos →
  well_shaped_run E →
  ∀ t, ∃ t', scan_combos E combos t = (Ok tt, t').
Proof.
  intros Hres Hshape. induction Hres as [|c combos Hc _ IH]; intros t.
  - by exists t.
  - destruct c as [[[mktA legA] mktB] legB]. destruct Hc as (tA & tB & HA & HB).
    simpl in HA, HB.
    assert (Hscan : ∃ t1, scan_combo E (mktA, legA, mktB, legB) t = (Ok tt, t1)).
    { rewrite scan_combo_paths, HA, HB. cbv zeta.
      destruct (best_of_well_shaped _ (Hshape t tA)) as [bidA ->].
      destruct (best_of_well_shaped _ (Hshape (t ++ [orderbook_request tA]) tB))
        as [bidB ->].
      destruct bidA, bidB; eauto. }
    destruct Hscan as [t1 Hscan]. destruct (IH t1) as [t' Hrun].
    exists t'. by rewrite scan_combos_cons, Hscan.
Qed.

End ScanOutcome.

Lemma scan_combos_exceptions_witness :
  (∃ c, c ∈ [first_combo; second_combo] ∧ ¬ resolves c
        ∧ ∃ key, AttributeError "'str' object has no attribute 'get'" = KeyError key)
  ∨ (∃ msg, AttributeError "'str' object has no attribute 'get'" = TypeError msg)
  ∨ (∃ msg, AttributeError "'str' object has no attribute 'get'" = AttributeError msg).
Proof.
  apply (scan_combos_exceptions abort_env [first_combo; second_combo] []
           (AttributeError "'str' object has no attribute 'get'")
           [orderbook_request first_tokenA; orderbook_request first_tokenB;
            Printed "CUT25 YES + CUTCUTPAUSE YES → 0.4000 + 0.5500 = 0.9500";
            orderbook_request second_tokenA]).
  vm_compute; reflexivity.
Defined.

Lemma scan_combos_returns_on_well_shaped_run_witness :
  ∃ t', scan_combos quiet_env MONITORED_COMBOS [] = (Ok tt, t').
Proof.
  apply (scan_combos_returns_on_well_shaped_run quiet_env MONITORED_COMBOS).
  - unfold MONITORED_COMBOS, resolves.
    repeat constructor; simpl; eexists; eexists; split; vm_compute; reflexivity.
  - intros h token_id. unfold quiet_env, online, scripted. simpl.
    assert (Hbook : ∀ price, well_shaped (book [entry price])).
    { intros price. right. exists (book_fields [entry price]).
      split; [reflexivity|]. right. exists [entry price].
      split; [vm_compute; reflexivity|]. unfold entry. repeat constructor. }
    destruct (_ - _)%nat as [|[|n]]; simpl; [apply Hbook|apply Hbook|].
    left. by destruct n.
Defined.

(** Prices written with digits or white space outside ASCII are coerced
    like their ASCII counterparts: an Arabic-Indic 0.6 is the best bid next
    to 0.5, and a NaN behind a no-break space is a NaN. *)
Example unicode_prices :
  coercible_prices [entry (PyStr "0.5"); entry (PyStr "٠.٦")]
    = [half; float_of_decimal false 6 (-1)]
  ∧ best_of (book [entry (PyStr "0.5"); entry (PyStr "٠.٦")])
    = Ok (Some (float_of_decimal false 6 (-1)))
  ∧ best_of (book [entry (PyStr "٠.٦"); entry (PyStr "nan")])
    = Ok (Some (float_of_decimal false 6 (-1)))
  ∧ best_of (book [entry (PyStr (nbsp +:+ "nan")); entry (PyStr "0.5")])
    = Ok (Some S754_nan)
  ∧ best_of (book [entry (PyStr "0.5"); entry (PyStr (nbsp +:+ "nan"))])
    = Ok (Some half).
Proof. repeat split; vm_compute; reflexivity. Qed.
